(** * Torque dashboard: the BLE session manager of [Torque_dashboad.py]

    The development embeds the connection and session logic of the
    [TorqueDashboard] class: the Qt slots that run on the main thread,
    the scan worker, the connect-and-stream worker, and the way the
    threads share the attributes of the dashboard object.  Widget texts
    and style sheets are presentation only; of the widgets the model
    keeps the enabled flags of the buttons and the torque label. *)

From Stdlib Require Import ZArith List String Ascii Bool Lia.
From Stdlib Require Import Strings.Byte.
Import ListNotations.

Local Open Scope Z_scope.
Local Open Scope list_scope.

(** ** Python primitives used by the program *)

Module Py.

(** Truth value of a [str]: only the empty string is falsy. *)
Definition truthy (s : string) : bool :=
  match s with
  | EmptyString => false
  | String _ _ => true
  end.

(** Truth value of an attribute that is [None] or a [str]. *)
Definition truthy_opt (o : option string) : bool :=
  match o with
  | None => false
  | Some s => truthy s
  end.

(** [x or default] where [x] is [None] or a [str]. *)
Definition or_default (x : option string) (default : string) : string :=
  match x with
  | Some s => if truthy s then s else default
  | None => default
  end.

(** [needle in hay] on [str]: [needle] occurs as a contiguous run. *)
Fixpoint contains (needle hay : string) : bool :=
  String.prefix needle hay
  || match hay with
     | EmptyString => false
     | String _ rest => contains needle rest
     end.

(** [int.from_bytes(value, byteorder="little")]: the first byte is the
    least significant one; Python integers are unbounded. *)
Fixpoint int_from_bytes_little (value : list byte) : Z :=
  match value with
  | [] => 0
  | b :: rest => Z.of_N (Byte.to_N b) + 256 * int_from_bytes_little rest
  end.

End Py.

(** ** Signals, log lines and threads *)

(** The five signals of [BLESignals]. *)
Inductive Signal : Type :=
| data_received (torque_value : Z)
| connection_status (status : string)
| device_found (address name : string)
| error_occurred (error_message : string)
| scan_completed (success : bool).

(** The lines handed to [log_message], one constructor per call site;
    the arguments are the values interpolated into the text. *)
Inductive LogMsg : Type :=
| LogInitialized                       (* "Dashboard initialized ..." *)
| LogRemainsOpen                       (* "Dashboard will remain open ..." *)
| LogConnectionLost                    (* "ESP32 connection lost - ..." *)
| LogAutoRetry (attempt maximum : Z)   (* "Auto-retry attempt {a}/{m}" *)
| LogWarning (error_message : string)  (* on_error_occurred *)
| LogStartingScan                      (* "Starting BLE scan..." *)
| LogStoppingPreviousScan              (* "Stopping previous scan..." *)
| LogScanning                          (* "Scanning for BLE devices..." *)
| LogDeviceCount (n : nat)             (* "Found {len(devices)} BLE devices" *)
| LogSeen (name address : string)      (* "Found: {name} ({address})" *)
| LogNoDevices                         (* "No ESP32_To devices found" *)
| LogScanFoundNothing                  (* "Scan completed - No ESP32 found" *)
| LogDeviceFound (name address : string)
| LogAttempting (address : string)     (* "Attempting connection to ..." *)
| LogConnected                         (* "Connected to ESP32!" *)
| LogConnectionFailed                  (* "Connection failed - ..." *)
| LogDisconnecting                     (* "Disconnecting from ESP32..." *)
| LogAutoRetryEnabled
| LogAutoRetryDisabled
| LogSimulated (value : Z)             (* "Simulated torque: {value} Ncm" *)
| LogReceived (torque_value : Z)       (* "Received: {torque_value} Ncm" *)
| LogDatabaseSaveError (e : string).   (* "Database save error: {e}" *)

(** The three kinds of [threading.Thread] the dashboard starts. *)
Inductive Thread : Type :=
| ScanThread          (* target=self.run_scan_safe *)
| ConnectionThread    (* target=self.run_connection_safe *)
| DisconnectThread.   (* target=self.run_disconnect_safe *)

(** What the torque label shows: red "HIGH TORQUE: v" or green
    "Torque: v". *)
Inductive Classification : Type := Normal | High.

Inductive TorqueLabel : Type :=
| NoReading
| Shown (c : Classification) (torque_value : Z).

(** Where an [sqlite3] call of [save_torque_value] may raise.  The row
    is stored once [commit] has returned. *)
Inductive DbStage : Type :=
| AtConnect | AtCursor | AtExecute | AtCommit | AtClose.

Inductive DbOutcome : Type :=
| DbOk
| DbRaises (stage : DbStage) (e : string).

Definition committed (stage : DbStage) : bool :=
  match stage with
  | AtClose => true
  | _ => false
  end.

(** ** The dashboard object *)

(** The attributes of [TorqueDashboard] and the two module globals the
    session logic reads and writes.  [ble_client] is [None] or a client
    whose [is_connected] property has the given value.  [torque_data]
    is the [torque_value] column of the table, oldest row first.
    [emitted] lists the signals emitted by code running on the main
    thread and [threads] the threads started, both in program order. *)
Record Dashboard : Type := {
  SENSOR_ADDRESS : option string;
  THRESHOLD : Z;
  app_running : bool;
  is_connected : bool;
  connection_active : bool;
  ble_client : option bool;
  retry_count : Z;
  max_retries : Z;
  auto_retry : bool;
  btn_scan_enabled : bool;
  btn_connect_enabled : bool;
  btn_disconnect_enabled : bool;
  torque_label : TorqueLabel;
  torque_data : list Z;
  console : list LogMsg;
  emitted : list Signal;
  threads : list Thread
}.

(** Assignment to one attribute. *)
Definition set_SENSOR_ADDRESS (v : option string) (self : Dashboard)
  : Dashboard :=
  {| SENSOR_ADDRESS := v; THRESHOLD := THRESHOLD self;
     app_running := app_running self; is_connected := is_connected self;
     connection_active := connection_active self;
     ble_client := ble_client self; retry_count := retry_count self;
     max_retries := max_retries self; auto_retry := auto_retry self;
     btn_scan_enabled := btn_scan_enabled self;
     btn_connect_enabled := btn_connect_enabled self;
     btn_disconnect_enabled := btn_disconnect_enabled self;
     torque_label := torque_label self; torque_data := torque_data self;
     console := console self; emitted := emitted self;
     threads := threads self |}.

Definition set_THRESHOLD (v : Z) (self : Dashboard) : Dashboard :=
  {| SENSOR_ADDRESS := SENSOR_ADDRESS self; THRESHOLD := v;
     app_running := app_running self; is_connected := is_connected self;
     connection_active := connection_active self;
     ble_client := ble_client self; retry_count := retry_count self;
     max_retries := max_retries self; auto_retry := auto_retry self;
     btn_scan_enabled := btn_scan_enabled self;
     btn_connect_enabled := btn_connect_enabled self;
     btn_disconnect_enabled := btn_disconnect_enabled self;
     torque_label := torque_label self; torque_data := torque_data self;
     console := console self; emitted := emitted self;
     threads := threads self |}.

Definition set_app_running (v : bool) (self : Dashboard) : Dashboard :=
  {| SENSOR_ADDRESS := SENSOR_ADDRESS self; THRESHOLD := THRESHOLD self;
     app_running := v; is_connected := is_connected self;
     connection_active := connection_active self;
     ble_client := ble_client self; retry_count := retry_count self;
     max_retries := max_retries self; auto_retry := auto_retry self;
     btn_scan_enabled := btn_scan_enabled self;
     btn_connect_enabled := btn_connect_enabled self;
     btn_disconnect_enabled := btn_disconnect_enabled self;
     torque_label := torque_label self; torque_data := torque_data self;
     console := console self; emitted := emitted self;
     threads := threads self |}.

Definition set_is_connected (v : bool) (self : Dashboard) : Dashboard :=
  {| SENSOR_ADDRESS := SENSOR_ADDRESS self; THRESHOLD := THRESHOLD self;
     app_running := app_running self; is_connected := v;
     connection_active := connection_active self;
     ble_client := ble_client self; retry_count := retry_count self;
     max_retries := max_retries self; auto_retry := auto_retry self;
     btn_scan_enabled := btn_scan_enabled self;
     btn_connect_enabled := btn_connect_enabled self;
     btn_disconnect_enabled := btn_disconnect_enabled self;
     torque_label := torque_label self; torque_data := torque_data self;
     console := console self; emitted := emitted self;
     threads := threads self |}.

Definition set_connection_active (v : bool) (self : Dashboard) : Dashboard :=
  {| SENSOR_ADDRESS := SENSOR_ADDRESS self; THRESHOLD := THRESHOLD self;
     app_running := app_running self; is_connected := is_connected self;
     connection_active := v; ble_client := ble_client self;
     retry_count := retry_count self; max_retries := max_retries self;
     auto_retry := auto_retry self;
     btn_scan_enabled := btn_scan_enabled self;
     btn_connect_enabled := btn_connect_enabled self;
     btn_disconnect_enabled := btn_disconnect_enabled self;
     torque_label := torque_label self; torque_data := torque_data self;
     console := console self; emitted := emitted self;
     threads := threads self |}.

Definition set_ble_client (v : option bool) (self : Dashboard) : Dashboard :=
  {| SENSOR_ADDRESS := SENSOR_ADDRESS self; THRESHOLD := THRESHOLD self;
     app_running := app_running self; is_connected := is_connected self;
     connection_active := connection_active self; ble_client := v;
     retry_count := retry_count self; max_retries := max_retries self;
     auto_retry := auto_retry self;
     btn_scan_enabled := btn_scan_enabled self;
     btn_connect_enabled := btn_connect_enabled self;
     btn_disconnect_enabled := btn_disconnect_enabled self;
     torque_label := torque_label self; torque_data := torque_data self;
     console := console self; emitted := emitted self;
     threads := threads self |}.

Definition set_retry_count (v : Z) (self : Dashboard) : Dashboard :=
  {| SENSOR_ADDRESS := SENSOR_ADDRESS self; THRESHOLD := THRESHOLD self;
     app_running := app_running self; is_connected := is_connected self;
     connection_active := connection_active self;
     ble_client := ble_client self; retry_count := v;
     max_retries := max_retries self; auto_retry := auto_retry self;
     btn_scan_enabled := btn_scan_enabled self;
     btn_connect_enabled := btn_connect_enabled self;
     btn_disconnect_enabled := btn_disconnect_enabled self;
     torque_label := torque_label self; torque_data := torque_data self;
     console := console self; emitted := emitted self;
     threads := threads self |}.

Definition set_auto_retry (v : bool) (self : Dashboard) : Dashboard :=
  {| SENSOR_ADDRESS := SENSOR_ADDRESS self; THRESHOLD := THRESHOLD self;
     app_running := app_running self; is_connected := is_connected self;
     connection_active := connection_active self;
     ble_client := ble_client self; retry_count := retry_count self;
     max_retries := max_retries self; auto_retry := v;
     btn_scan_enabled := btn_scan_enabled self;
     btn_connect_enabled := btn_connect_enabled self;
     btn_disconnect_enabled := btn_disconnect_enabled self;
     torque_label := torque_label self; torque_data := torque_data self;
     console := console self; emitted := emitted self;
     threads := threads self |}.

Definition set_btn_scan_enabled (v : bool) (self : Dashboard) : Dashboard :=
  {| SENSOR_ADDRESS := SENSOR_ADDRESS self; THRESHOLD := THRESHOLD self;
     app_running := app_running self; is_connected := is_connected self;
     connection_active := connection_active self;
     ble_client := ble_client self; retry_count := retry_count self;
     max_retries := max_retries self; auto_retry := auto_retry self;
     btn_scan_enabled := v; btn_connect_enabled := btn_connect_enabled self;
     btn_disconnect_enabled := btn_disconnect_enabled self;
     torque_label := torque_label self; torque_data := torque_data self;
     console := console self; emitted := emitted self;
     threads := threads self |}.

Definition set_btn_connect_enabled (v : bool) (self : Dashboard) : Dashboard :=
  {| SENSOR_ADDRESS := SENSOR_ADDRESS self; THRESHOLD := THRESHOLD self;
     app_running := app_running self; is_connected := is_connected self;
     connection_active := connection_active self;
     ble_client := ble_client self; retry_count := retry_count self;
     max_retries := max_retries self; auto_retry := auto_retry self;
     btn_scan_enabled := btn_scan_enabled self; btn_connect_enabled := v;
     btn_disconnect_enabled := btn_disconnect_enabled self;
     torque_label := torque_label self; torque_data := torque_data self;
     console := console self; emitted := emitted self;
     threads := threads self |}.

Definition set_btn_disconnect_enabled (v : bool) (self : Dashboard)
  : Dashboard :=
  {| SENSOR_ADDRESS := SENSOR_ADDRESS self; THRESHOLD := THRESHOLD self;
     app_running := app_running self; is_connected := is_connected self;
     connection_active := connection_active self;
     ble_client := ble_client self; retry_count := retry_count self;
     max_retries := max_retries self; auto_retry := auto_retry self;
     btn_scan_enabled := btn_scan_enabled self;
     btn_connect_enabled := btn_connect_enabled self;
     btn_disconnect_enabled := v; torque_label := torque_label self;
     torque_data := torque_data self; console := console self;
     emitted := emitted self; threads := threads self |}.

Definition set_torque_label (v : TorqueLabel) (self : Dashboard) : Dashboard :=
  {| SENSOR_ADDRESS := SENSOR_ADDRESS self; THRESHOLD := THRESHOLD self;
     app_running := app_running self; is_connected := is_connected self;
     connection_active := connection_active self;
     ble_client := ble_client self; retry_count := retry_count self;
     max_retries := max_retries self; auto_retry := auto_retry self;
     btn_scan_enabled := btn_scan_enabled self;
     btn_connect_enabled := btn_connect_enabled self;
     btn_disconnect_enabled := btn_disconnect_enabled self;
     torque_label := v; torque_data := torque_data self;
     console := console self; emitted := emitted self;
     threads := threads self |}.

Definition set_torque_data (v : list Z) (self : Dashboard) : Dashboard :=
  {| SENSOR_ADDRESS := SENSOR_ADDRESS self; THRESHOLD := THRESHOLD self;
     app_running := app_running self; is_connected := is_connected self;
     connection_active := connection_active self;
     ble_client := ble_client self; retry_count := retry_count self;
     max_retries := max_retries self; auto_retry := auto_retry self;
     btn_scan_enabled := btn_scan_enabled self;
     btn_connect_enabled := btn_connect_enabled self;
     btn_disconnect_enabled := btn_disconnect_enabled self;
     torque_label := torque_label self; torque_data := v;
     console := console self; emitted := emitted self;
     threads := threads self |}.

Definition set_console (v : list LogMsg) (self : Dashboard) : Dashboard :=
  {| SENSOR_ADDRESS := SENSOR_ADDRESS self; THRESHOLD := THRESHOLD self;
     app_running := app_running self; is_connected := is_connected self;
     connection_active := connection_active self;
     ble_client := ble_client self; retry_count := retry_count self;
     max_retries := max_retries self; auto_retry := auto_retry self;
     btn_scan_enabled := btn_scan_enabled self;
     btn_connect_enabled := btn_connect_enabled self;
     btn_disconnect_enabled := btn_disconnect_enabled self;
     torque_label := torque_label self; torque_data := torque_data self;
     console := v; emitted := emitted self; threads := threads self |}.

Definition set_emitted (v : list Signal) (self : Dashboard) : Dashboard :=
  {| SENSOR_ADDRESS := SENSOR_ADDRESS self; THRESHOLD := THRESHOLD self;
     app_running := app_running self; is_connected := is_connected self;
     connection_active := connection_active self;
     ble_client := ble_client self; retry_count := retry_count self;
     max_retries := max_retries self; auto_retry := auto_retry self;
     btn_scan_enabled := btn_scan_enabled self;
     btn_connect_enabled := btn_connect_enabled self;
     btn_disconnect_enabled := btn_disconnect_enabled self;
     torque_label := torque_label self; torque_data := torque_data self;
     console := console self; emitted := v; threads := threads self |}.

Definition set_threads (v : list Thread) (self : Dashboard) : Dashboard :=
  {| SENSOR_ADDRESS := SENSOR_ADDRESS self; THRESHOLD := THRESHOLD self;
     app_running := app_running self; is_connected := is_connected self;
     connection_active := connection_active self;
     ble_client := ble_client self; retry_count := retry_count self;
     max_retries := max_retries self; auto_retry := auto_retry self;
     btn_scan_enabled := btn_scan_enabled self;
     btn_connect_enabled := btn_connect_enabled self;
     btn_disconnect_enabled := btn_disconnect_enabled self;
     torque_label := torque_label self; torque_data := torque_data self;
     console := console self; emitted := emitted self; threads := v |}.
Notation "x |> f" := (f x) (at level 50, left associativity, only parsing).

(** The state [__init__] leaves behind: nothing discovered, nothing
    connected, three retries allowed, automatic retry switched off. *)
Definition init : Dashboard :=
  {| SENSOR_ADDRESS := None; THRESHOLD := 100;
     app_running := true; is_connected := false;
     connection_active := false; ble_client := None;
     retry_count := 0; max_retries := 3; auto_retry := false;
     btn_scan_enabled := true; btn_connect_enabled := false;
     btn_disconnect_enabled := false;
     torque_label := NoReading; torque_data := [];
     console := [LogInitialized; LogRemainsOpen];
     emitted := []; threads := [] |}.

(** ** Methods that run on the main thread *)

Definition log_message (message : LogMsg) (self : Dashboard) : Dashboard :=
  set_console (console self ++ [message]) self.

Definition start_thread (t : Thread) (self : Dashboard) : Dashboard :=
  set_threads (threads self ++ [t]) self.

Definition on_error_occurred (error_message : string) (self : Dashboard)
  : Dashboard :=
  self |> log_message (LogWarning error_message)
       |> set_is_connected false
       |> set_connection_active false
       |> set_btn_connect_enabled true
       |> set_btn_disconnect_enabled false.

(** [self.ble_signals.error_occurred.emit(...)] from the main thread:
    sender and receiver live in the same thread, so the slot runs
    before [emit] returns. *)
Definition emit_error_occurred (error_message : string) (self : Dashboard)
  : Dashboard :=
  self |> set_emitted (emitted self ++ [error_occurred error_message])
       |> on_error_occurred error_message.

Definition safe_connect_device (self : Dashboard) : Dashboard :=
  match SENSOR_ADDRESS self with
  | Some address =>
      if Py.truthy address then
        self |> log_message (LogAttempting address)
             |> set_btn_connect_enabled false
             |> set_connection_active true
             |> start_thread ConnectionThread
      else
        emit_error_occurred
          "No ESP32 address available - Please scan first" self
  | None =>
      emit_error_occurred
        "No ESP32 address available - Please scan first" self
  end.

Definition monitor_connection (self : Dashboard) : Dashboard :=
  if negb (app_running self) then self
  else
    match is_connected self, ble_client self with
    | true, Some client_is_connected =>
        if negb client_is_connected then
          let self := self |> log_message LogConnectionLost
                           |> set_is_connected false
                           |> set_connection_active false in
          if auto_retry self && (retry_count self <? max_retries self) then
            self |> log_message
                      (LogAutoRetry (retry_count self + 1) (max_retries self))
                 |> set_retry_count (retry_count self + 1)
                 |> safe_connect_device
          else self
        else self
    | _, _ => self
    end.

(** [previous_alive] is [self.scan_thread.is_alive()] of an earlier
    scan thread; the new thread is started either way. *)
Definition safe_scan_devices (previous_alive : bool) (self : Dashboard)
  : Dashboard :=
  let self := self |> log_message LogStartingScan
                   |> set_btn_scan_enabled false in
  let self := if previous_alive
              then log_message LogStoppingPreviousScan self
              else self in
  start_thread ScanThread self.

Definition on_scan_completed (success : bool) (self : Dashboard)
  : Dashboard :=
  let self := set_btn_scan_enabled true self in
  if negb success then log_message LogScanFoundNothing self else self.

Definition on_device_found (address name : string) (self : Dashboard)
  : Dashboard :=
  self |> set_SENSOR_ADDRESS (Some address)
       |> log_message (LogDeviceFound name address)
       |> set_btn_connect_enabled true
       |> set_retry_count 0.

Definition on_connection_status (status : string) (self : Dashboard)
  : Dashboard :=
  if (status =? "connected")%string then
    self |> set_is_connected true
         |> set_connection_active true
         |> log_message LogConnected
         |> set_btn_connect_enabled false
         |> set_btn_disconnect_enabled true
         |> set_retry_count 0
  else if (status =? "failed")%string then
    self |> set_is_connected false
         |> set_connection_active false
         |> log_message LogConnectionFailed
         |> set_btn_connect_enabled true
         |> set_btn_disconnect_enabled false
  else self.

Definition safe_disconnect_device (self : Dashboard) : Dashboard :=
  let self := self |> set_is_connected false
                   |> set_connection_active false
                   |> log_message LogDisconnecting
                   |> set_btn_disconnect_enabled false
                   |> set_btn_connect_enabled true in
  match ble_client self with
  | Some _ => start_thread DisconnectThread self
  | None => self
  end.

Definition toggle_auto_retry (self : Dashboard) : Dashboard :=
  let self := set_auto_retry (negb (auto_retry self)) self in
  if auto_retry self
  then log_message LogAutoRetryEnabled self
  else log_message LogAutoRetryDisabled self.

(** [save_torque_value]: every exception of the [sqlite3] calls is
    caught inside the method and only logged. *)
Definition save_torque_value (db : DbOutcome) (torque_value : Z)
  (self : Dashboard) : Dashboard :=
  match db with
  | DbOk => set_torque_data (torque_data self ++ [torque_value]) self
  | DbRaises stage e =>
      let self := if committed stage
                  then set_torque_data (torque_data self ++ [torque_value]) self
                  else self in
      log_message (LogDatabaseSaveError e) self
  end.

(** [on_data_received]: [save_torque_value] never raises, and neither
    does the comparison of two integers, so the handler of the [try]
    block, which would emit an error signal, is not entered. *)
Definition on_data_received (torque_value : Z) (db : DbOutcome)
  (self : Dashboard) : Dashboard :=
  let self := self |> save_torque_value db torque_value
                   |> log_message (LogReceived torque_value) in
  if torque_value >? THRESHOLD self
  then set_torque_label (Shown High torque_value) self
  else set_torque_label (Shown Normal torque_value) self.

Definition simulated_values : list Z :=
  [45; 85; 120; 165; 200; 175; 130; 90; 60; 30].

(** [random.choice] picks the element at position [pick]. *)
Definition simulate_torque_data (pick : nat) (db : DbOutcome)
  (self : Dashboard) : Dashboard :=
  let value := nth (pick mod 10) simulated_values 45 in
  self |> set_emitted (emitted self ++ [data_received value])
       |> on_data_received value db
       |> log_message (LogSimulated value).

(** [update_threshold]: [slider_value] is what
    [self.slider_threshold.value()] returns. *)
Definition update_threshold (slider_value : Z) (self : Dashboard)
  : Dashboard :=
  set_THRESHOLD slider_value self.

(** The slot connected to each signal in [__init__]. *)
Definition slot (sig : Signal) (db : DbOutcome) (self : Dashboard)
  : Dashboard :=
  match sig with
  | data_received torque_value => on_data_received torque_value db self
  | connection_status status => on_connection_status status self
  | device_found address name => on_device_found address name self
  | error_occurred error_message => on_error_occurred error_message self
  | scan_completed success => on_scan_completed success self
  end.

(** What the user and the timers can trigger on the main thread. *)
Inductive UiEvent : Type :=
| Tick                                   (* connection_monitor, every 5 s *)
| ClickScan
| ClickConnect
| ClickDisconnect
| ClickAutoRetry
| ClickSimulate (pick : nat) (db : DbOutcome)
| MoveSlider (slider_value : Z).

(** A disabled button does not deliver its click, and the slider, set
    up with minimum 10 and maximum 200, delivers no value outside. *)
Definition ui_enabled (u : UiEvent) (self : Dashboard) : bool :=
  match u with
  | ClickScan => btn_scan_enabled self
  | ClickConnect => btn_connect_enabled self
  | ClickDisconnect => btn_disconnect_enabled self
  | MoveSlider slider_value => (10 <=? slider_value) && (slider_value <=? 200)
  | _ => true
  end.

Definition ui (scan_alive : bool) (u : UiEvent) (self : Dashboard)
  : Dashboard :=
  match u with
  | Tick => monitor_connection self
  | ClickScan => safe_scan_devices scan_alive self
  | ClickConnect => safe_connect_device self
  | ClickDisconnect => safe_disconnect_device self
  | ClickAutoRetry => toggle_auto_retry self
  | ClickSimulate pick db => simulate_torque_data pick db self
  | MoveSlider slider_value => update_threshold slider_value self
  end.

(** ** The scan worker *)

Module Bleak.

(** A [BLEDevice] as [BleakScanner.discover] returns it. *)
Record BLEDevice : Type := { name : option string; address : string }.

(** The calls the connection worker makes on its [BleakClient]. *)
Inductive Call : Type :=
| Connect (address : option string)
| ReadGattChar.

End Bleak.

(** What a worker thread does to the outside: a line written with
    [log_message], or a signal, whose slot runs later on the main
    thread. *)
Inductive Effect : Type :=
| Say (message : LogMsg)
| Emit (sig : Signal).

(** How [BleakScanner.discover(timeout=10.0)] ends. *)
Inductive Discovery : Type :=
| Discovered (devices : list Bleak.BLEDevice)
| DiscoverRaises (e : string)
| DiscoverHangs.       (* the 15 s deadline of [wait_for] fires first *)

Inductive Exit : Type := Returned | Cancelled.

Definition name_matches (device_name : string) : bool :=
  Py.truthy device_name && Py.contains "ESP32_To" device_name.

(** [device.name or "Unknown"]. *)
Definition shown_name (device : Bleak.BLEDevice) : string :=
  Py.or_default (Bleak.name device) "Unknown".

Definition seen_line (device : Bleak.BLEDevice) : LogMsg :=
  LogSeen (shown_name device) (Bleak.address device).

(** The [for device in devices] loop; the flag is [found_esp32]. *)
Fixpoint scan_loop (devices : list Bleak.BLEDevice) : list Effect * bool :=
  match devices with
  | [] => ([], false)
  | device :: rest =>
      let device_name := shown_name device in
      if name_matches device_name then
        ([Say (seen_line device);
          Emit (device_found (Bleak.address device) device_name)], true)
      else
        let (effects, found_esp32) := scan_loop rest in
        (Say (seen_line device) :: effects, found_esp32)
  end.

Definition scan_ble_devices_safe (d : Discovery) : list Effect * Exit :=
  match d with
  | Discovered devices =>
      let (effects, found_esp32) := scan_loop devices in
      (Say LogScanning :: Say (LogDeviceCount (List.length devices))
         :: effects ++ (if found_esp32 then [] else [Say LogNoDevices]),
       Returned)
  | DiscoverRaises e =>
      ([Say LogScanning;
        Emit (error_occurred ("BLE scan failed: " ++ e)%string)],
       Returned)
  | DiscoverHangs => ([Say LogScanning], Cancelled)
  end.

(** How the body of [run_scan_safe] goes: setting up the event loop
    raises, or the scan coroutine runs. *)
Inductive ScanRun : Type :=
| ScanSetupRaises (e : string)
| Scans (d : Discovery).

(** [run_scan_safe]: the [finally] clause runs on every path. *)
Definition run_scan_safe (r : ScanRun) : list Effect :=
  match r with
  | ScanSetupRaises e =>
      [Emit (error_occurred ("Scan error: " ++ e)%string);
       Emit (scan_completed false)]
  | Scans d =>
      match scan_ble_devices_safe d with
      | (effects, Returned) => effects
      | (effects, Cancelled) =>
          effects
            ++ [Emit (error_occurred
                        "Scan timeout - ESP32 may not be available");
                Emit (scan_completed false)]
      end
  end
  ++ [Emit (scan_completed true)].

Definition signals_of (effects : list Effect) : list Signal :=
  flat_map (fun x => match x with Emit sig => [sig] | Say _ => [] end)
           effects.

Definition lines_of (effects : list Effect) : list LogMsg :=
  flat_map (fun x => match x with Say m => [m] | Emit _ => [] end)
           effects.

(** ** The connect-and-stream worker *)

(** Where a connection thread stands in [run_connection_safe] and
    [connect_ble_device_safe]. *)
Inductive Pc : Type :=
| AtStart          (* thread started, nothing run yet *)
| AwaitConnect     (* inside [await self.ble_client.connect()] *)
| AtLoopTest       (* about to evaluate the [while] condition *)
| InLoopBody       (* condition held, [read_gatt_char] not yet called *)
| AwaitRead        (* inside [await ...read_gatt_char(...)] *)
| AwaitSleep       (* inside [await asyncio.sleep(2.5)] *)
| Finished.        (* [run_connection_safe] has returned *)

(** One move of a connection thread, with the answer of the transport
    where the move consumes one. *)
Inductive WorkerStep : Type :=
| SetupRaises (e : string)     (* creating the event loop raises *)
| Begin                        (* create the client, call [connect] *)
| ConnectReturns (now_connected : bool)
| ConnectRaises (e : string)
| TestLoop
| IssueRead
| ReadReturns (value : list byte)
| ReadRaises (e : string)
| Wake                         (* the 2.5 s sleep is over *)
| Deadline.                    (* the 30 s deadline of [wait_for] fires *)

Definition connection_failed (e : string) : list Signal :=
  [error_occurred ("BLE connection failed: " ++ e)%string;
   connection_status "failed"].

Definition connection_timeout : list Signal :=
  [error_occurred "Connection timeout - ESP32 may not be responding";
   connection_status "failed"].

(** The condition of the read loop. *)
Definition loop_condition (client_is_connected : bool) (self : Dashboard)
  : bool :=
  client_is_connected && is_connected self && connection_active self
  && app_running self.

(** [data_received] is declared [pyqtSignal(int)]: its argument is
    converted to a C [int], and [emit] raises [OverflowError] for a
    Python integer outside that range. *)
Definition fits_c_int (v : Z) : bool :=
  (-2147483648 <=? v) && (v <=? 2147483647).

(** The text of that [OverflowError]. *)
Definition c_int_overflow : string :=
  "argument 1 overflowed: value must be in the range -2147483648 to 2147483647".

(** [worker_step ws pc self] is the new position of the thread, the
    dashboard object after the move, the signals emitted and the
    transport calls made.  A move that is not possible at [pc] changes
    nothing.  [ConnectReturns b]: [connect()] has returned and
    [self.ble_client.is_connected] now reads [b].  [ReadReturns value]:
    the decoded value is emitted; when [emit] raises, the handler of
    the [try] block in the loop reports it and the loop is left. *)
Definition worker_step (ws : WorkerStep) (pc : Pc) (self : Dashboard)
  : Pc * Dashboard * list Signal * list Bleak.Call :=
  match pc, ws with
  | AtStart, SetupRaises e =>
      (Finished, self,
       [error_occurred ("Connection error: " ++ e)%string;
        connection_status "failed"], [])
  | AtStart, Begin =>
      (AwaitConnect, set_ble_client (Some false) self, [],
       [Bleak.Connect (SENSOR_ADDRESS self)])
  | AwaitConnect, ConnectRaises e =>
      (Finished, self, connection_failed e, [])
  | AwaitConnect, ConnectReturns now_connected =>
      match ble_client self with
      | None =>
          (Finished, self,
           connection_failed
             "'NoneType' object has no attribute 'is_connected'", [])
      | Some _ =>
          let self := set_ble_client (Some now_connected) self in
          if now_connected
          then (AtLoopTest, self, [connection_status "connected"], [])
          else (Finished, self, [connection_status "failed"], [])
      end
  | AtLoopTest, TestLoop =>
      match ble_client self with
      | None =>
          (Finished, self,
           connection_failed
             "'NoneType' object has no attribute 'is_connected'", [])
      | Some client_is_connected =>
          if loop_condition client_is_connected self
          then (InLoopBody, self, [], [])
          else (Finished, self, [], [])
      end
  | InLoopBody, IssueRead =>
      (AwaitRead, self, [], [Bleak.ReadGattChar])
  | AwaitRead, ReadReturns value =>
      let torque_value := Py.int_from_bytes_little value in
      if fits_c_int torque_value
      then (AwaitSleep, self, [data_received torque_value], [])
      else
        (Finished, self,
         [error_occurred ("Data read error: " ++ c_int_overflow)%string], [])
  | AwaitRead, ReadRaises e =>
      (Finished, self, [error_occurred ("Data read error: " ++ e)%string], [])
  | AwaitSleep, Wake => (AtLoopTest, self, [], [])
  | AwaitConnect, Deadline
  | AwaitRead, Deadline
  | AwaitSleep, Deadline => (Finished, self, connection_timeout, [])
  | _, _ => (pc, self, [], [])
  end.

(** ** Main thread and workers together *)

(** [workers] has one entry per connection thread, in the order the
    threads were started; [scans] counts the scan threads that have not
    run yet (a scan thread is alive until it has run); [queue] holds
    the signals emitted by workers whose slot has not run yet; [sent]
    and [calls] record, per connection thread, every signal emitted and
    every transport call made. *)
Record World : Type := {
  gui : Dashboard;
  workers : list Pc;
  scans : nat;
  queue : list Signal;
  sent : list (nat * Signal);
  calls : list (nat * Bleak.Call)
}.

Inductive Action : Type :=
| User (u : UiEvent)
| Deliver (db : DbOutcome)    (* the slot of the oldest queued signal runs *)
| Worker (i : nat) (ws : WorkerStep)
| ScanWorker (r : ScanRun)    (* a started scan thread runs [run_scan_safe] *)
| Link (up : bool).           (* the link of the current client changes *)

Definition boot : World :=
  {| gui := init; workers := []; scans := 0%nat; queue := [];
     sent := []; calls := [] |}.

Definition is_connection_thread (t : Thread) : bool :=
  match t with ConnectionThread => true | _ => false end.

Definition is_scan_thread (t : Thread) : bool :=
  match t with ScanThread => true | _ => false end.

(** The main thread ran and left [self]: the threads it started since
    [gui w] begin to exist. *)
Definition main_ran (self : Dashboard) (w : World) : World :=
  let started := skipn (List.length (threads (gui w))) (threads self) in
  {| gui := self;
     workers := workers w
       ++ repeat AtStart (List.length (filter is_connection_thread started));
     scans := scans w + List.length (filter is_scan_thread started);
     queue := queue w; sent := sent w; calls := calls w |}.

Fixpoint set_nth {A : Type} (i : nat) (x : A) (l : list A) : list A :=
  match i, l with
  | _, [] => []
  | O, _ :: rest => x :: rest
  | S i, y :: rest => y :: set_nth i x rest
  end.

Definition apply_effect (w : World) (x : Effect) : World :=
  match x with
  | Say message =>
      {| gui := log_message message (gui w); workers := workers w;
         scans := scans w; queue := queue w; sent := sent w;
         calls := calls w |}
  | Emit sig =>
      {| gui := gui w; workers := workers w; scans := scans w;
         queue := queue w ++ [sig]; sent := sent w; calls := calls w |}
  end.

Definition is_connect (c : Bleak.Call) : bool :=
  match c with Bleak.Connect _ => true | _ => false end.

(** The thread that created the client [self.ble_client] holds: the one
    that called [connect] last. *)
Definition owner (w : World) : option nat :=
  match rev (filter (fun c => is_connect (snd c)) (calls w)) with
  | [] => None
  | c :: _ => Some (fst c)
  end.

(** What thread [i] finds when its [connect()] has returned.  The call
    was made on the client the thread created; the test that follows
    reads [self.ble_client], which is another client once a later
    thread has begun, and then has the value that client has now. *)
Definition observed (i : nat) (ws : WorkerStep) (w : World) : WorkerStep :=
  match ws with
  | ConnectReturns _ =>
      match owner w, ble_client (gui w) with
      | Some j, Some current =>
          if (j =? i)%nat then ws else ConnectReturns current
      | _, _ => ws
      end
  | _ => ws
  end.

Definition world_step (a : Action) (w : World) : World :=
  match a with
  | User u =>
      if ui_enabled u (gui w)
      then main_ran (ui (0 <? scans w)%nat u (gui w)) w
      else w
  | Deliver db =>
      match queue w with
      | [] => w
      | sig :: rest =>
          main_ran (slot sig db (gui w))
            {| gui := gui w; workers := workers w; scans := scans w;
               queue := rest; sent := sent w; calls := calls w |}
      end
  | Worker i ws =>
      match nth_error (workers w) i with
      | None => w
      | Some pc =>
          let '(pc', self, signals, issued) :=
            worker_step (observed i ws w) pc (gui w) in
          {| gui := self; workers := set_nth i pc' (workers w);
             scans := scans w; queue := queue w ++ signals;
             sent := sent w ++ map (pair i) signals;
             calls := calls w ++ map (pair i) issued |}
      end
  | ScanWorker r =>
      match scans w with
      | O => w
      | S remaining =>
          fold_left apply_effect (run_scan_safe r)
            {| gui := gui w; workers := workers w; scans := remaining;
               queue := queue w; sent := sent w; calls := calls w |}
      end
  | Link up =>
      match ble_client (gui w) with
      | None => w
      | Some _ =>
          {| gui := set_ble_client (Some up) (gui w);
             workers := workers w; scans := scans w; queue := queue w;
             sent := sent w; calls := calls w |}
      end
  end.

Definition run (actions : list Action) (w : World) : World :=
  fold_left (fun w a => world_step a w) actions w.

(** Position of connection thread [i]; a thread that was never started
    counts as finished. *)
Definition pc_of (w : World) (i : nat) : Pc :=
  nth i (workers w) Finished.

Definition is_read (c : Bleak.Call) : bool :=
  match c with Bleak.ReadGattChar => true | _ => false end.

Definition is_reading (sig : Signal) : bool :=
  match sig with data_received _ => true | _ => false end.

(** Reads issued and readings emitted so far by connection thread [i]. *)
Definition reads_by (i : nat) (w : World) : nat :=
  List.length
    (filter (fun c => (fst c =? i)%nat && is_read (snd c)) (calls w)).

Definition readings_by (i : nat) (w : World) : nat :=
  List.length
    (filter (fun s => (fst s =? i)%nat && is_reading (snd s)) (sent w)).

Definition is_auto_retry (m : LogMsg) : bool :=
  match m with LogAutoRetry _ _ => true | _ => false end.

(** Automatic reconnection attempts [monitor_connection] has started. *)
Definition auto_attempts (self : Dashboard) : nat :=
  List.length (filter is_auto_retry (console self)).

Definition connection_threads (self : Dashboard) : nat :=
  List.length (filter is_connection_thread (threads self)).

(** ** Devices and runs used in the examples *)

Definition sensor : Bleak.BLEDevice :=
  {| Bleak.name := Some "ESP32_Torque"%string;
     Bleak.address := "24:6F:28:AA:BB:CC"%string |}.

Definition wristband : Bleak.BLEDevice :=
  {| Bleak.name := Some "Mi Band 4"%string;
     Bleak.address := "C8:0F:10:11:22:33"%string |}.

Definition nameless : Bleak.BLEDevice :=
  {| Bleak.name := None; Bleak.address := "5A:00:00:00:00:01"%string |}.

(** A device advertises the sensor when it has a name, the name is not
    empty, and "ESP32_To" occurs in it. *)
Definition advertises_sensor (device : Bleak.BLEDevice) : Prop :=
  exists device_name,
    Bleak.name device = Some device_name
    /\ device_name <> EmptyString
    /\ exists pre post,
         device_name = (pre ++ "ESP32_To" ++ post)%string.

(** Scan, find the sensor, switch automatic retry on. *)
Definition found_sensor : list Action :=
  [User ClickScan;
   ScanWorker (Scans (Discovered [wristband; nameless; sensor]));
   Deliver DbOk; Deliver DbOk; User ClickAutoRetry].

(** Connection thread [i] is started by hand and its connect succeeds. *)
Definition connect_ok (i : nat) : list Action :=
  [User ClickConnect; Worker i Begin; Worker i (ConnectReturns true);
   Deliver DbOk].

(** Connection thread [i] is started by hand and its connect raises. *)
Definition connect_fails (i : nat) : list Action :=
  [User ClickConnect; Worker i Begin;
   Worker i (ConnectRaises "Device not found"); Deliver DbOk; Deliver DbOk].

(** Connection thread [i] goes once round the read loop and sleeps. *)
Definition one_reading (i : nat) : list Action :=
  [Worker i TestLoop; Worker i IssueRead;
   Worker i (ReadReturns [x2a; x00]); Deliver DbOk].

(** Thread 0 is connected, has delivered one reading and sleeps. *)
Definition streaming : list Action :=
  found_sensor ++ connect_ok 0 ++ one_reading 0.

(** Two connects by hand fail, the third succeeds, then the link drops
    and the monitor timer fires. *)
Definition fail_fail_succeed_fail : list Action :=
  found_sensor ++ connect_fails 0 ++ connect_fails 1 ++ connect_ok 2
    ++ [Link false; User Tick].

(** Thread 0 is inside [connect()] when a second scan finds the sensor
    again. *)
Definition connecting_rescanned : list Action :=
  found_sensor
    ++ [User ClickConnect; Worker 0 Begin; User ClickScan;
        ScanWorker (Scans (Discovered [sensor])); Deliver DbOk; Deliver DbOk].

(** Thread 0 streams when a second scan finds the sensor again. *)
Definition streaming_rescanned : list Action :=
  streaming
    ++ [User ClickScan; ScanWorker (Scans (Discovered [sensor]));
        Deliver DbOk; Deliver DbOk].

(** ** Notions used to state the temporal properties *)

(** The next action runs the slot of a "connected" status. *)
Definition delivers_connected (a : Action) (w : World) : bool :=
  match a, queue w with
  | Deliver _, connection_status status :: _ => (status =? "connected")%string
  | _, _ => false
  end.

(** No action of the run processes a "connected" status. *)
Fixpoint no_success (actions : list Action) (w : World) : bool :=
  match actions with
  | [] => true
  | a :: rest =>
      negb (delivers_connected a w) && no_success rest (world_step a w)
  end.

(** [safe_disconnect_device] is called on the main thread. *)
Definition stop (w : World) : World :=
  main_ran (safe_disconnect_device (gui w)) w.

Definition in_loop (pc : Pc) : bool :=
  match pc with
  | AtLoopTest | InLoopBody | AwaitRead | AwaitSleep => true
  | _ => false
  end.

(** The most moves a connection thread can still make when every test
    of the loop condition fails: from inside the loop these are issue
    the read, get its answer, sleep, test. *)
Definition steps_to_exit (pc : Pc) : nat :=
  match pc with
  | InLoopBody => 4
  | AwaitRead | AtStart => 3
  | AwaitSleep | AwaitConnect => 2
  | AtLoopTest => 1
  | Finished => 0
  end.

(** Reads the current round may still issue, readings it may still
    emit. *)
Definition reads_left (pc : Pc) : nat :=
  match pc with InLoopBody => 1 | _ => 0 end.

Definition readings_left (pc : Pc) : nat :=
  match pc with InLoopBody | AwaitRead => 1 | _ => 0 end.

(** The link drops while thread 0 sleeps; the thread leaves the loop at
    its next test; the monitor starts attempt 1; its connect raises;
    the monitor timer fires three more times. *)
Definition after_link_loss : list Action :=
  [Link false; Worker 0 Wake; Worker 0 TestLoop; User Tick;
   Worker 1 Begin; Worker 1 (ConnectRaises "Device not found");
   Deliver DbOk; Deliver DbOk; User Tick; User Tick; User Tick].

Definition link_lost_for_good : list Action := streaming ++ after_link_loss.

(** A read raises; the monitor timer fires three times. *)
Definition read_fails : list Action :=
  streaming
    ++ [Worker 0 Wake; Worker 0 TestLoop; Worker 0 IssueRead;
        Worker 0 (ReadRaises "Not connected"); Deliver DbOk;
        User Tick; User Tick; User Tick].

(** Thread 0 streams and sleeps when a scan is started whose thread
    cannot set up its event loop. *)
Definition scan_error_while_streaming : list Action :=
  streaming ++ [User ClickScan; ScanWorker (ScanSetupRaises "no adapter")].

(** The two completions of that scan are processed, then thread 1 is
    started by hand and connects, all while thread 0 is still asleep. *)
Definition reconnect_after_error : list Action :=
  [Deliver DbOk; Deliver DbOk] ++ connect_ok 1.

(** After a disconnect by hand, thread 1 is started and connects while
    thread 0 is still asleep. *)
Definition reconnect_during_sleep : list Action :=
  Link false :: connect_ok 1.

(** What one action may do to the count of automatic attempts and to
    [is_connected], as long as it is not the slot of "connected": the
    flag does not come up, and the count goes up by one at most, and
    only while the flag goes down. *)
Definition calm (before after : Dashboard) : Prop :=
  (is_connected before = false ->
   is_connected after = false
   /\ auto_attempts after = auto_attempts before)
  /\ (auto_attempts after + (if is_connected after then 1 else 0)
      <= auto_attempts before + (if is_connected before then 1 else 0))%nat.

(** ** Signals taken out of the queue one after the other *)

(** The main thread runs the slots of [signals] in order; every
    database access meets the same outcome [db]. *)
Definition deliver_all (signals : list Signal) (db : DbOutcome)
  (self : Dashboard) : Dashboard :=
  fold_left (fun s sig => slot sig db s) signals self.

(** The values carried by the [data_received] signals of a list. *)
Definition readings_in (signals : list Signal) : list Z :=
  flat_map
    (fun sig => match sig with data_received v => [v] | _ => [] end)
    signals.

(** The row reaches the table. *)
Definition stores (db : DbOutcome) : bool :=
  match db with
  | DbOk => true
  | DbRaises stage _ => committed stage
  end.

(** ** Invariants of the dashboard object *)

(** What holds whenever the dashboard believes it is connected, and the
    range of the retry counter. *)
Definition consistent (self : Dashboard) : Prop :=
  (is_connected self = true ->
   connection_active self = true
   /\ retry_count self = 0
   /\ btn_disconnect_enabled self = true)
  /\ 0 <= retry_count self <= 1
  /\ max_retries self = 3.

Definition is_toggle (a : Action) : bool :=
  match a with
  | User ClickAutoRetry => true
  | _ => false
  end.

(** A read has been issued and its answer is still out. *)
Definition pending_read (pc : Pc) : nat :=
  match pc with AwaitRead => 1 | _ => 0 end.

(** Connection thread [i] has emitted the "connected" status. *)
Definition reported_connected (i : nat) (w : World) : Prop :=
  In (i, connection_status "connected") (sent w).

(** ** Closing the window *)

Module Shutdown.

(** The lines that only [closeEvent], [force_close_app] and
    [run_disconnect_safe] write to the console. *)
Inductive Line : Type :=
| LogClosing                      (* "Dashboard closing gracefully..." *)
| LogForceClosing                 (* "Force closing dashboard..." *)
| LogDisconnectError (e : string). (* "Disconnect error: {e}" *)

(** The dashboard object together with the attributes the methods above
    use in addition.  [lines] holds the lines they write, each with the
    number of lines [console] had when it was written, which fixes its
    place among them.  [accepted] records [event.accept()]. *)
Record Window : Type := {
  dashboard : Dashboard;
  force_close : bool;
  timer_active : bool;
  connection_monitor_active : bool;
  accepted : bool;
  lines : list (nat * Line)
}.

(** The window [__init__] leaves behind: both timers started. *)
Definition opened : Window :=
  {| dashboard := init; force_close := false; timer_active := true;
     connection_monitor_active := true; accepted := false; lines := [] |}.

Definition write (line : Line) (w : Window) : Window :=
  {| dashboard := dashboard w; force_close := force_close w;
     timer_active := timer_active w;
     connection_monitor_active := connection_monitor_active w;
     accepted := accepted w;
     lines := lines w ++ [(List.length (console (dashboard w)), line)] |}.

Definition on_dashboard (f : Dashboard -> Dashboard) (w : Window) : Window :=
  {| dashboard := f (dashboard w); force_close := force_close w;
     timer_active := timer_active w;
     connection_monitor_active := connection_monitor_active w;
     accepted := accepted w; lines := lines w |}.

Definition stop_timers (w : Window) : Window :=
  {| dashboard := dashboard w; force_close := force_close w;
     timer_active := false; connection_monitor_active := false;
     accepted := accepted w; lines := lines w |}.

Definition accept (w : Window) : Window :=
  {| dashboard := dashboard w; force_close := force_close w;
     timer_active := timer_active w;
     connection_monitor_active := connection_monitor_active w;
     accepted := true; lines := lines w |}.

Definition set_force_close (v : bool) (w : Window) : Window :=
  {| dashboard := dashboard w; force_close := v;
     timer_active := timer_active w;
     connection_monitor_active := connection_monitor_active w;
     accepted := accepted w; lines := lines w |}.

(** [closeEvent]: the clean-up is skipped when [force_close] is set;
    the event is accepted either way.  Both timers exist once
    [__init__] has run, so both are stopped; a client object always has
    the [is_connected] property. *)
Definition closeEvent (w : Window) : Window :=
  accept
    (if negb (force_close w) then
       let w := w |> write LogClosing
                  |> on_dashboard (set_app_running false)
                  |> on_dashboard (set_is_connected false)
                  |> on_dashboard (set_connection_active false)
                  |> stop_timers in
       match ble_client (dashboard w) with
       | Some true => on_dashboard safe_disconnect_device w
       | _ => w
       end
     else w).

(** [force_close_app]: [self.close()] delivers the close event before
    it returns. *)
Definition force_close_app (w : Window) : Window :=
  w |> write LogForceClosing
    |> set_force_close true
    |> on_dashboard (set_app_running false)
    |> closeEvent.

(** How the body of [run_disconnect_safe] goes once a client exists:
    setting up the event loop raises, or [disconnect()] is called and
    returns or raises. *)
Inductive Disconnect : Type :=
| DisconnectSetupRaises (e : string)
| DisconnectReturns
| DisconnectRaises (e : string).

(** [run_disconnect_safe]: the flag tells whether [disconnect] was
    called.  A client on which [disconnect()] has returned reports not
    to be connected. *)
Definition run_disconnect_safe (d : Disconnect) (w : Window)
  : Window * bool :=
  match ble_client (dashboard w) with
  | None => (w, false)
  | Some _ =>
      match d with
      | DisconnectSetupRaises e => (write (LogDisconnectError e) w, false)
      | DisconnectReturns =>
          (on_dashboard (set_ble_client (Some false)) w, true)
      | DisconnectRaises e => (write (LogDisconnectError e) w, true)
      end
  end.

End Shutdown.

(** * Properties *)

(** ** Python primitives *)

Lemma prefix_spec (a b : string) :
  String.prefix a b = true <-> exists post, b = (a ++ post)%string.
Proof.
  revert b; induction a as [|c a IH]; intros b; simpl.
  - split; [intros _; now exists b | intros _; now destruct b].
  - destruct b as [|d b].
    + split; [discriminate | intros [post H]; discriminate].
    + simpl; destruct (Ascii.ascii_dec c d) as [->|Hne].
      * rewrite IH; split; intros [post H]; exists post.
        -- now rewrite H.
        -- now inversion H.
      * split; [discriminate | intros [post H]; inversion H; congruence].
Qed.

(** [Py.contains] is Python's substring test. *)
Lemma contains_spec (needle hay : string) :
  Py.contains needle hay = true
  <-> exists pre post, hay = (pre ++ needle ++ post)%string.
Proof.
  induction hay as [|c hay IH]; cbn [Py.contains].
  - rewrite orb_false_r, prefix_spec; split.
    + intros [post H]; now exists EmptyString, post.
    + intros [pre [post H]]; destruct pre; [now exists post | discriminate].
  - rewrite orb_true_iff, prefix_spec, IH; split.
    + intros [[post H] | [pre [post H]]].
      * now exists EmptyString, post.
      * exists (String c pre), post; simpl; now rewrite H.
    + intros [pre [post H]]; destruct pre as [|d pre]; simpl in H.
      * left; now exists post.
      * right; exists pre, post; now inversion H.
Qed.

Lemma byte_range (b : byte) : 0 <= Z.of_N (Byte.to_N b) < 256.
Proof.
  pose proof (Byte.to_N_bounded b) as H; lia.
Qed.

Lemma int_from_bytes_little_range (value : list byte) :
  0 <= Py.int_from_bytes_little value < 256 ^ Z.of_nat (List.length value).
Proof.
  induction value as [|b rest IH].
  - simpl; lia.
  - cbn [Py.int_from_bytes_little List.length].
    rewrite Nat2Z.inj_succ, Z.pow_succ_r by lia.
    pose proof (byte_range b).
    set (x := Py.int_from_bytes_little rest) in *.
    set (p := 256 ^ Z.of_nat (List.length rest)) in *.
    clearbody x p; lia.
Qed.

(** Bytes further to the right weigh more. *)
Lemma int_from_bytes_little_app (low high : list byte) :
  Py.int_from_bytes_little (low ++ high)
  = Py.int_from_bytes_little low
    + 256 ^ Z.of_nat (List.length low) * Py.int_from_bytes_little high.
Proof.
  induction low as [|b low IH].
  - cbn [Py.int_from_bytes_little List.length app Z.of_nat].
    rewrite Z.pow_0_r; lia.
  - cbn [Py.int_from_bytes_little List.length app].
    rewrite IH, Nat2Z.inj_succ, Z.pow_succ_r by lia; ring.
Qed.

(** ** Classification and decoding *)

Lemma save_keeps_threshold db v self :
  THRESHOLD (save_torque_value db v self) = THRESHOLD self.
Proof. destruct db as [|[] e]; reflexivity. Qed.

Lemma save_keeps_emitted db v self :
  emitted (save_torque_value db v self) = emitted self.
Proof. destruct db as [|[] e]; reflexivity. Qed.

Lemma on_data_received_label v db self :
  torque_label (on_data_received v db self)
  = Shown (if v >? THRESHOLD self then High else Normal) v.
Proof.
  unfold on_data_received; cbn [log_message set_console THRESHOLD].
  rewrite save_keeps_threshold.
  destruct (v >? THRESHOLD self); reflexivity.
Qed.

(** C1: the label of a received reading is the high one exactly when the
    value is strictly above the threshold in force, whatever the
    database does; a value equal to the threshold is shown as normal. *)
Theorem classification_is_strict
  (torque_value : Z) (db : DbOutcome) (self : Dashboard) :
  (torque_label (on_data_received torque_value db self)
     = Shown High torque_value
   <-> torque_value > THRESHOLD self)
  /\ (torque_label (on_data_received torque_value db self)
        = Shown Normal torque_value
      <-> torque_value <= THRESHOLD self)
  /\ torque_label (on_data_received (THRESHOLD self) db self)
       = Shown Normal (THRESHOLD self).
Proof.
  rewrite !on_data_received_label, !Z.gtb_ltb, Z.ltb_irrefl.
  destruct (Z.ltb_spec (THRESHOLD self) torque_value) as [Hgt|Hle];
    repeat split; intros; try discriminate; try lia; reflexivity.
Qed.

Lemma short_payload_fits (value : list byte) :
  (List.length value <= 3)%nat ->
  fits_c_int (Py.int_from_bytes_little value) = true.
Proof.
  intros Hlen; pose proof (int_from_bytes_little_range value) as [Hlo Hhi].
  assert (Hpow : 256 ^ Z.of_nat (List.length value) <= 256 ^ 3)
    by (apply Z.pow_le_mono_r; lia).
  change (256 ^ 3) with 16777216 in Hpow.
  unfold fits_c_int; apply andb_true_iff; split; apply Z.leb_le; lia.
Qed.

(** C10: decoding accepts a payload of any length and yields a
    non-negative integer below 256^length, with the first byte the least
    significant; the empty payload is 0 and is emitted as a reading.
    The decoding itself never fails: a returned payload leads to a
    [data_received] emission whenever its value fits the C [int] of the
    signal, as every payload of up to three bytes does, and otherwise
    the only error is the one [emit] raises for the value. *)
Theorem decoding_is_total (value : list byte) (self : Dashboard) :
  0 <= Py.int_from_bytes_little value < 256 ^ Z.of_nat (List.length value)
  /\ (forall b : byte,
        Py.int_from_bytes_little (value ++ [b])
        = Py.int_from_bytes_little value
          + 256 ^ Z.of_nat (List.length value) * Z.of_N (Byte.to_N b))
  /\ Py.int_from_bytes_little [] = 0
  /\ worker_step (ReadReturns []) AwaitRead self
     = (AwaitSleep, self, [data_received 0], [])
  /\ (fits_c_int (Py.int_from_bytes_little value) = true ->
      worker_step (ReadReturns value) AwaitRead self
      = (AwaitSleep, self,
         [data_received (Py.int_from_bytes_little value)], []))
  /\ ((List.length value <= 3)%nat ->
      fits_c_int (Py.int_from_bytes_little value) = true)
  /\ (fits_c_int (Py.int_from_bytes_little value) = false ->
      worker_step (ReadReturns value) AwaitRead self
      = (Finished, self,
         [error_occurred ("Data read error: " ++ c_int_overflow)%string],
         [])).
Proof.
  split; [apply int_from_bytes_little_range|].
  split; [intros b; rewrite int_from_bytes_little_app; simpl; lia|].
  split; [reflexivity|]; split; [reflexivity|].
  split; [|split; [apply short_payload_fits|]];
    intros H; cbn [worker_step]; now rewrite H.
Qed.

Lemma decoding_is_total_witness :
  worker_step (ReadReturns [x2a; x01]) AwaitRead init
  = (AwaitSleep, init, [data_received 298], []).
Proof.
  pose proof (decoding_is_total [x2a; x01] init) as H.
  destruct H as (_ & _ & _ & _ & H & _).
  exact (H eq_refl).
Defined.

(** ** Bookkeeping of the combined system *)

Lemma nth_set_nth {A : Type} (l : list A) (i j : nat) (x d : A) :
  nth i (set_nth j x l) d
  = if ((i =? j)%nat && (j <? List.length l)%nat)%bool then x else nth i l d.
Proof.
  revert i j; induction l as [|y l IH]; intros i j.
  - destruct j; cbn [set_nth List.length]; rewrite andb_false_r; reflexivity.
  - destruct j as [|j], i as [|i]; cbn [set_nth nth]; try reflexivity.
    rewrite IH; reflexivity.
Qed.

Lemma length_set_nth {A : Type} (l : list A) (j : nat) (x : A) :
  List.length (set_nth j x l) = List.length l.
Proof.
  revert j; induction l as [|y l IH]; intros [|j]; cbn; auto.
Qed.

(** A worker only ever writes [ble_client]. *)
Lemma worker_step_gui ws pc self :
  snd (fst (fst (worker_step ws pc self))) = self
  \/ exists c, snd (fst (fst (worker_step ws pc self)))
               = set_ble_client (Some c) self.
Proof.
  destruct pc, ws; cbn; auto;
    repeat match goal with
           | |- context [match ?x with _ => _ end] => destruct x; cbn
           | |- context [if ?x then _ else _] => destruct x; cbn
           end; eauto.
Qed.

Lemma effects_keep_workers (effects : list Effect) (w : World) :
  workers (fold_left apply_effect effects w) = workers w
  /\ sent (fold_left apply_effect effects w) = sent w
  /\ calls (fold_left apply_effect effects w) = calls w.
Proof.
  revert w; induction effects as [|x effects IH]; intros w; [now cbn|].
  cbn [fold_left]; destruct (IH (apply_effect w x)) as (H1 & H2 & H3).
  rewrite H1, H2, H3; destruct x; now cbn.
Qed.

(** Position of a started thread after one action of the system: only
    its own moves change it. *)
Lemma pc_of_world_step (a : Action) (w : World) (i : nat) :
  (i < List.length (workers w))%nat ->
  pc_of (world_step a w) i
  = match a with
    | Worker j ws =>
        if (j =? i)%nat
        then fst (fst (fst (worker_step (observed j ws w)
                                        (pc_of w i) (gui w))))
        else pc_of w i
    | _ => pc_of w i
    end.
Proof.
  intros Hi; unfold pc_of; destruct a as [u|db|j ws|r|up]; cbn [world_step].
  - destruct (ui_enabled u (gui w)); [|reflexivity].
    cbn [main_ran workers]; now rewrite app_nth1.
  - destruct (queue w); [reflexivity|].
    cbn [main_ran workers]; now rewrite app_nth1.
  - generalize (observed j ws w); clear ws; intros ws.
    destruct (nth_error (workers w) j) as [pc|] eqn:Hj.
    + destruct (Nat.eqb_spec j i) as [->|Hne].
      * rewrite (nth_error_nth _ _ Finished Hj).
        destruct (worker_step ws pc (gui w)) as [[[pc' self'] sg] iss].
        cbn [workers fst]; rewrite nth_set_nth, Nat.eqb_refl.
        now apply Nat.ltb_lt in Hi as ->.
      * destruct (worker_step ws pc (gui w)) as [[[pc' self'] sg] iss].
        cbn [workers]; rewrite nth_set_nth.
        destruct (Nat.eqb_spec i j); [congruence|reflexivity].
    + apply nth_error_None in Hj.
      destruct (Nat.eqb_spec j i); [lia|reflexivity].
  - destruct (scans w); [reflexivity|].
    now rewrite (proj1 (effects_keep_workers _ _)).
  - destruct (ble_client (gui w)); reflexivity.
Qed.

Lemma workers_grow (a : Action) (w : World) :
  (List.length (workers w) <= List.length (workers (world_step a w)))%nat.
Proof.
  destruct a as [u|db|j ws|r|up]; cbn [world_step].
  - destruct (ui_enabled u (gui w)); [|lia].
    cbn [main_ran workers]; rewrite length_app; lia.
  - destruct (queue w); [lia|].
    cbn [main_ran workers]; rewrite length_app; lia.
  - generalize (observed j ws w); clear ws; intros ws.
    destruct (nth_error (workers w) j); [|lia].
    destruct (worker_step ws p (gui w)) as [[[pc' self'] sg] iss].
    cbn [workers]; rewrite length_set_nth; lia.
  - destruct (scans w); [lia|].
    rewrite (proj1 (effects_keep_workers _ _)); cbn; lia.
  - destruct (ble_client (gui w)); cbn; lia.
Qed.

Lemma started_of_pc (w : World) (i : nat) :
  pc_of w i <> Finished -> (i < List.length (workers w))%nat.
Proof.
  unfold pc_of; intros H.
  destruct (Nat.lt_ge_cases i (List.length (workers w))) as [|Hge]; [easy|].
  now rewrite nth_overflow in H.
Qed.

(** ** Readings and errors on the main thread *)

(** C9: when an [sqlite3] call raises while a reading is stored, no
    signal is emitted and only a log line records it; the reading is
    still classified and shown, the connection flags are untouched, and
    unless the fault came after the commit the table has no row for it. *)
Theorem database_failure_is_swallowed
  (torque_value : Z) (stage : DbStage) (e : string) (self : Dashboard) :
  let self' := on_data_received torque_value (DbRaises stage e) self in
  emitted self' = emitted self
  /\ console self'
     = console self ++ [LogDatabaseSaveError e; LogReceived torque_value]
  /\ torque_label self'
     = Shown (if torque_value >? THRESHOLD self then High else Normal)
             torque_value
  /\ (committed stage = false -> torque_data self' = torque_data self)
  /\ is_connected self' = is_connected self
  /\ connection_active self' = connection_active self.
Proof.
  cbv zeta; split; [|split; [|split; [apply on_data_received_label|]]].
  - unfold on_data_received.
    destruct stage, (torque_value >? _); reflexivity.
  - unfold on_data_received.
    destruct stage, (torque_value >? _); cbn; now rewrite <- app_assoc.
  - unfold on_data_received.
    destruct stage, (torque_value >? _); cbn; repeat split;
      intros; try discriminate; reflexivity.
Qed.

Lemma database_failure_is_swallowed_witness :
  torque_data (on_data_received 120 (DbRaises AtExecute "database is locked")
                 init)
  = torque_data init.
Proof.
  apply (database_failure_is_swallowed 120 AtExecute "database is locked"
           init).
  reflexivity.
Defined.

Lemma gui_of_worker_move (i : nat) (ws : WorkerStep) (w : World) :
  (i < List.length (workers w))%nat ->
  gui (world_step (Worker i ws) w)
  = snd (fst (fst (worker_step (observed i ws w) (pc_of w i) (gui w)))).
Proof.
  intros Hi; cbn [world_step]; unfold pc_of.
  generalize (observed i ws w); clear ws; intros ws.
  destruct (nth_error (workers w) i) as [pc|] eqn:Hpc.
  - rewrite (nth_error_nth _ _ Finished Hpc).
    now destruct (worker_step ws pc (gui w)) as [[[pc' self'] sg] iss].
  - apply nth_error_None in Hpc; lia.
Qed.

Lemma flags_down_stop_loop (self : Dashboard) :
  is_connected self = false ->
  fst (fst (fst (worker_step TestLoop AtLoopTest self))) = Finished.
Proof.
  intros H; cbn [worker_step]; unfold loop_condition.
  destruct (ble_client self) as [c|]; [|reflexivity].
  now rewrite H, andb_false_r.
Qed.

(** ** Retry counter and manual connect *)

(** C4: a "connected" status and a found device both set the retry
    counter to 0 from any state; so whatever the counter was before a
    success, the next loss of the link is logged as attempt 1 and leaves
    the counter at 1, as in the run fail, fail, succeed, fail. *)
Theorem success_and_discovery_reset_retry_count (self : Dashboard) :
  retry_count (on_connection_status "connected" self) = 0
  /\ (forall address name,
        retry_count (on_device_found address name self) = 0)
  /\ (app_running self = true ->
      auto_retry self = true ->
      0 < max_retries self ->
      let lost :=
        set_ble_client (Some false) (on_connection_status "connected" self) in
      retry_count (monitor_connection lost) = 1
      /\ exists tail,
           console (monitor_connection lost)
           = console self
               ++ [LogConnected; LogConnectionLost;
                   LogAutoRetry 1 (max_retries self)] ++ tail)
  /\ (let w := run fail_fail_succeed_fail boot in
      retry_count (gui w) = 1
      /\ auto_attempts (gui w) = 1%nat
      /\ In (LogAutoRetry 1 3) (console (gui w))).
Proof.
  split; [reflexivity|]; split; [reflexivity|]; split.
  - intros Hrun Hauto Hmax; cbv zeta.
    unfold monitor_connection; cbn.
    rewrite Hrun, Hauto; cbn.
    destruct (Z.ltb_spec 0 (max_retries self)) as [_|]; [|lia].
    unfold safe_connect_device; cbn.
    destruct (SENSOR_ADDRESS self) as [[|c address]|]; cbn;
      (split; [reflexivity|]); rewrite <- !app_assoc; cbn; eauto.
  - vm_compute; repeat split.
    repeat match goal with
           | |- _ \/ _ => (left; reflexivity) || right
           end.
Qed.

Lemma success_and_discovery_reset_retry_count_witness :
  retry_count
    (monitor_connection
       (set_ble_client (Some false)
          (on_connection_status "connected"
             (set_retry_count 2 (set_auto_retry true init)))))
  = 1.
Proof.
  pose proof (success_and_discovery_reset_retry_count
                (set_retry_count 2 (set_auto_retry true init))) as H.
  destruct H as (_ & _ & H & _).
  exact (proj1 (H eq_refl eq_refl eq_refl)).
Defined.

(** C5, as the program has it: with a device address known, a call of
    [safe_connect_device] starts one more connection thread in every
    state, also while connecting or streaming; it sets
    [connection_active], disables the connect button, emits nothing and
    leaves [is_connected], the retry counter, the address and the
    client alone.  What is ignored is a click on the connect button
    right after such a call, because the button is disabled. *)
Theorem connect_always_starts_a_worker
  (self : Dashboard) (address : string) :
  SENSOR_ADDRESS self = Some address ->
  address <> EmptyString ->
  let self' := safe_connect_device self in
  threads self' = threads self ++ [ConnectionThread]
  /\ connection_active self' = true
  /\ btn_connect_enabled self' = false
  /\ emitted self' = emitted self
  /\ is_connected self' = is_connected self
  /\ retry_count self' = retry_count self
  /\ SENSOR_ADDRESS self' = SENSOR_ADDRESS self
  /\ ble_client self' = ble_client self
  /\ forall w : World,
       gui w = self' ->
       world_step (User ClickConnect) w = w.
Proof.
  intros Haddr Hne; cbv zeta; unfold safe_connect_device; rewrite Haddr.
  destruct address as [|c address]; [congruence|]; cbn.
  repeat split; try assumption.
  intros w Hw; cbn [world_step ui_enabled]; now rewrite Hw.
Qed.

Lemma connect_always_starts_a_worker_witness :
  threads (safe_connect_device (gui (run streaming boot)))
  = threads (gui (run streaming boot)) ++ [ConnectionThread].
Proof.
  assert (Hne : "24:6F:28:AA:BB:CC"%string <> EmptyString) by discriminate.
  exact (proj1 (connect_always_starts_a_worker (gui (run streaming boot))
                  "24:6F:28:AA:BB:CC" eq_refl Hne)).
Defined.

(** C5, as stated, fails: while thread 0 is still inside [connect()],
    and likewise while it streams, the connect button is enabled again
    by a found device, and the click starts a second connection
    thread. *)
Lemma repeated_connect_is_not_a_noop :
  (let w := run connecting_rescanned boot in
   workers w = [AwaitConnect]
   /\ connection_active (gui w) = true
   /\ workers (world_step (User ClickConnect) w) = [AwaitConnect; AtStart]
   /\ connection_threads (safe_connect_device (gui w))
      = S (connection_threads (gui w)))
  /\ (let w := run streaming_rescanned boot in
      workers w = [AwaitSleep]
      /\ is_connected (gui w) = true
      /\ workers (world_step (User ClickConnect) w) = [AwaitSleep; AtStart]
      /\ connection_threads (safe_connect_device (gui w))
         = S (connection_threads (gui w))).
Proof.
  vm_compute; repeat split.
Qed.

(** ** The scan worker *)

Lemma name_matches_spec (device : Bleak.BLEDevice) :
  name_matches (shown_name device) = true <-> advertises_sensor device.
Proof.
  unfold advertises_sensor, shown_name, name_matches.
  destruct device as [[[|c device_name]|] address]; cbn [Bleak.name].
  - split; [discriminate|].
    intros (n & Hn & Hne & _); congruence.
  - cbn [Py.or_default Py.truthy andb]; rewrite contains_spec; split.
    + intros H; exists (String c device_name); repeat split; easy.
    + intros (n & Hn & _ & H); now injection Hn as ->.
  - split; [discriminate|].
    intros (n & Hn & _); discriminate.
Qed.

Lemma signals_of_app (a b : list Effect) :
  signals_of (a ++ b) = signals_of a ++ signals_of b.
Proof. apply flat_map_app. Qed.

Lemma lines_of_app (a b : list Effect) :
  lines_of (a ++ b) = lines_of a ++ lines_of b.
Proof. apply flat_map_app. Qed.

(** The loop either walks the whole list without a match, or stops at
    the first device that advertises the sensor. *)
Lemma scan_loop_spec (devices : list Bleak.BLEDevice) :
  (Forall (fun d => ~ advertises_sensor d) devices
   /\ scan_loop devices = (map (fun d => Say (seen_line d)) devices, false))
  \/ (exists before d after,
        devices = before ++ d :: after
        /\ Forall (fun d => ~ advertises_sensor d) before
        /\ advertises_sensor d
        /\ scan_loop devices
           = (map (fun d => Say (seen_line d)) before
                ++ [Say (seen_line d);
                    Emit (device_found (Bleak.address d) (shown_name d))],
              true)).
Proof.
  induction devices as [|device rest IH].
  - left; split; [constructor | reflexivity].
  - cbn [scan_loop].
    destruct (name_matches (shown_name device)) eqn:Hm.
    + right; exists [], device, rest; repeat split; try constructor.
      now apply name_matches_spec.
    + assert (Hno : ~ advertises_sensor device).
      { intros H; apply name_matches_spec in H; congruence. }
      destruct IH
        as [[Hall Hloop] | (before & d & after & -> & Hall & Hd & Hloop)];
        rewrite Hloop.
      * left; split; [now constructor | reflexivity].
      * right; exists (device :: before), d, after; repeat split; try easy.
        now constructor.
Qed.

Lemma signals_of_seen (devices : list Bleak.BLEDevice) :
  signals_of (map (fun d => Say (seen_line d)) devices) = [].
Proof. induction devices; cbn; auto. Qed.

Lemma lines_of_seen (devices : list Bleak.BLEDevice) :
  lines_of (map (fun d => Say (seen_line d)) devices) = map seen_line devices.
Proof.
  induction devices as [|d devices IH]; [reflexivity|].
  cbn [map]; change (lines_of (?x :: ?l)) with (lines_of [x] ++ lines_of l).
  now rewrite IH.
Qed.

(** C2: for every list of discovered devices the scan either finds no
    device whose name is present, not empty and contains "ESP32_To",
    emits nothing and logs every device; or it emits exactly one
    [device_found], for the first such device of the list, with that
    device's address and name, and logs no device after it. *)
Theorem scan_reports_first_match_only (devices : list Bleak.BLEDevice) :
  let effects := fst (scan_ble_devices_safe (Discovered devices)) in
  (Forall (fun d => ~ advertises_sensor d) devices
   /\ signals_of effects = []
   /\ lines_of effects
      = LogScanning :: LogDeviceCount (List.length devices)
          :: map seen_line devices ++ [LogNoDevices])
  \/ (exists before d after device_name,
        devices = before ++ d :: after
        /\ Forall (fun d => ~ advertises_sensor d) before
        /\ advertises_sensor d
        /\ Bleak.name d = Some device_name
        /\ signals_of effects
           = [device_found (Bleak.address d) device_name]
        /\ lines_of effects
           = LogScanning :: LogDeviceCount (List.length devices)
               :: map seen_line (before ++ [d])).
Proof.
  cbv zeta; cbn [scan_ble_devices_safe].
  destruct (scan_loop_spec devices)
    as [[Hall Hloop] | (before & d & after & Hdev & Hall & Hd & Hloop)];
    rewrite Hloop; cbn [fst].
  - left; split; [assumption|].
    change (signals_of (?x :: ?y :: ?l)) with (signals_of l).
    change (lines_of (Say ?x :: Say ?y :: ?l)) with (x :: y :: lines_of l).
    rewrite signals_of_app, lines_of_app, signals_of_seen, lines_of_seen.
    split; reflexivity.
  - right.
    destruct Hd as (device_name & Hname & Hne & Hsub).
    exists before, d, after, device_name.
    assert (Hshown : shown_name d = device_name).
    { unfold shown_name; rewrite Hname.
      destruct device_name; [congruence | reflexivity]. }
    repeat split; try assumption.
    + now exists device_name.
    + change (signals_of (?x :: ?y :: ?l)) with (signals_of l).
      rewrite app_nil_r, signals_of_app, signals_of_seen, Hshown.
      reflexivity.
    + change (lines_of (Say ?x :: Say ?y :: ?l)) with (x :: y :: lines_of l).
      rewrite app_nil_r, lines_of_app, lines_of_seen, map_app.
      reflexivity.
Qed.

Lemma scan_loop_no_match (devices : list Bleak.BLEDevice) :
  Forall (fun d => ~ advertises_sensor d) devices ->
  scan_loop devices = (map (fun d => Say (seen_line d)) devices, false).
Proof.
  induction 1 as [|d devices Hd _ IH]; [reflexivity|].
  cbn [scan_loop].
  destruct (name_matches (shown_name d)) eqn:Hm.
  - now apply name_matches_spec in Hm.
  - now rewrite IH.
Qed.

(** C7, on the program: a scan that completes without a match, such as
    one that sees no device at all or only a wristband, emits no
    [device_found] but emits [scan_completed(True)] and never
    [scan_completed(False)]; on every path of [run_scan_safe] the last
    signal is [scan_completed(True)], and the slot of that signal does
    not write the "no ESP32 found" line. *)
Theorem scan_without_match_signals_success :
  (forall r : ScanRun,
     last (signals_of (run_scan_safe r)) (scan_completed false)
     = scan_completed true)
  /\ (forall devices : list Bleak.BLEDevice,
        Forall (fun d => ~ advertises_sensor d) devices ->
        signals_of (run_scan_safe (Scans (Discovered devices)))
        = [scan_completed true])
  /\ signals_of (run_scan_safe (Scans (Discovered []))) = [scan_completed true]
  /\ signals_of (run_scan_safe (Scans (Discovered [wristband])))
     = [scan_completed true]
  /\ (forall self : Dashboard,
        console (on_scan_completed true self) = console self).
Proof.
  split; [|split; [|repeat split]].
  - intros r; unfold run_scan_safe; rewrite signals_of_app.
    apply last_last.
  - intros devices Hall; unfold run_scan_safe; cbn [scan_ble_devices_safe].
    rewrite (scan_loop_no_match devices Hall).
    rewrite signals_of_app.
    change (signals_of (Say ?x :: Say ?y :: ?l)) with (signals_of l).
    now rewrite signals_of_app, signals_of_seen.
Qed.

Lemma scan_without_match_signals_success_witness :
  signals_of (run_scan_safe (Scans (Discovered [wristband; nameless])))
  = [scan_completed true].
Proof.
  assert (H : Forall (fun d => ~ advertises_sensor d) [wristband; nameless]).
  { repeat constructor; intros A; apply name_matches_spec in A;
      discriminate. }
  exact (proj1 (proj2 scan_without_match_signals_success) _ H).
Defined.

(** ** Automatic retries *)

Ltac calm_tac :=
  unfold calm, auto_attempts; cbn;
  rewrite ?filter_app, ?length_app; cbn;
  repeat split; intros; try discriminate; try lia.

Lemma calm_refl (self : Dashboard) : calm self self.
Proof. unfold calm; destruct (is_connected self); repeat split; lia. Qed.

Lemma calm_monitor_connection (self : Dashboard) :
  calm self (monitor_connection self).
Proof.
  destruct self as [addr th run conn act client n mx auto b1 b2 b3 lbl
                      rows con em thr].
  unfold monitor_connection, safe_connect_device, emit_error_occurred,
    on_error_occurred, log_message, start_thread; cbn.
  destruct run, conn, client as [[|]|], auto, (n <? mx), addr as [[|c a]|];
    calm_tac.
Qed.

Lemma calm_ui (alive : bool) (u : UiEvent) (self : Dashboard) :
  calm self (ui alive u self).
Proof.
  destruct u as [| | | | |pick db|v]; cbn [ui];
    [apply calm_monitor_connection|..];
    destruct self as [addr th run conn act client n mx auto b1 b2 b3 lbl
                        rows con em thr].
  - unfold safe_scan_devices, log_message, start_thread; cbn.
    destruct alive, conn; calm_tac.
  - unfold safe_connect_device, emit_error_occurred, on_error_occurred,
      log_message, start_thread; cbn.
    destruct conn, addr as [[|c a]|]; calm_tac.
  - unfold safe_disconnect_device, log_message, start_thread; cbn.
    destruct conn, client; calm_tac.
  - unfold toggle_auto_retry, log_message; cbn.
    destruct conn, auto; calm_tac.
  - unfold simulate_torque_data, on_data_received, save_torque_value,
      log_message; cbn.
    destruct conn, db as [|[] e]; cbn;
      match goal with |- context [?x >? ?y] => destruct (x >? y) end;
      calm_tac.
  - unfold update_threshold; destruct conn; calm_tac.
Qed.

Lemma calm_slot (sig : Signal) (db : DbOutcome) (self : Dashboard) :
  match sig with
  | connection_status status => (status =? "connected")%string = false
  | _ => True
  end ->
  calm self (slot sig db self).
Proof.
  destruct self as [addr th run conn act client n mx auto b1 b2 b3 lbl
                      rows con em thr].
  destruct sig as [v|status|a nm|msg|ok]; cbn [slot]; intros Hsig.
  - unfold on_data_received, save_torque_value, log_message; cbn.
    destruct conn, db as [|[] e]; cbn;
      match goal with |- context [?x >? ?y] => destruct (x >? y) end;
      calm_tac.
  - unfold on_connection_status; rewrite Hsig.
    destruct (status =? "failed")%string, conn; unfold log_message; calm_tac.
  - unfold on_device_found, log_message; destruct conn; calm_tac.
  - unfold on_error_occurred, log_message; destruct conn; calm_tac.
  - unfold on_scan_completed, log_message; destruct conn, ok; calm_tac.
Qed.

Lemma calm_trans (a b c : Dashboard) : calm a b -> calm b c -> calm a c.
Proof.
  unfold calm; intros [Hab1 Hab2] [Hbc1 Hbc2]; split; [|lia].
  intros Ha; destruct (Hab1 Ha) as [Hb Hn].
  destruct (Hbc1 Hb) as [Hc Hm]; split; congruence.
Qed.

Lemma calm_set_ble_client (c : option bool) (self : Dashboard) :
  calm self (set_ble_client c self).
Proof.
  destruct self as [addr th run conn act client n mx auto b1 b2 b3 lbl
                      rows con em thr].
  destruct conn; calm_tac.
Qed.

Lemma calm_worker_step (ws : WorkerStep) (pc : Pc) (self : Dashboard) :
  calm self (snd (fst (fst (worker_step ws pc self)))).
Proof.
  destruct (worker_step_gui ws pc self) as [-> | [c ->]];
    [apply calm_refl | apply calm_set_ble_client].
Qed.

Lemma scan_loop_lines (devices : list Bleak.BLEDevice) :
  filter is_auto_retry (lines_of (fst (scan_loop devices))) = [].
Proof.
  induction devices as [|d rest IH]; [reflexivity|].
  cbn [scan_loop]; destruct (name_matches (shown_name d)); [reflexivity|].
  destruct (scan_loop rest) as [effects found]; exact IH.
Qed.

Lemma scan_lines_no_retry (r : ScanRun) :
  filter is_auto_retry (lines_of (run_scan_safe r)) = [].
Proof.
  unfold run_scan_safe; rewrite lines_of_app, filter_app, app_nil_r.
  destruct r as [e|[devices|e|]]; try reflexivity.
  cbn [scan_ble_devices_safe].
  pose proof (scan_loop_lines devices) as H.
  destruct (scan_loop devices) as [effects found]; cbn [fst] in H.
  change (lines_of (Say ?x :: Say ?y :: ?l)) with (x :: y :: lines_of l).
  cbn [filter is_auto_retry].
  rewrite lines_of_app, filter_app, H; now destruct found.
Qed.

Lemma effects_gui (effects : list Effect) (w : World) :
  is_connected (gui (fold_left apply_effect effects w))
  = is_connected (gui w)
  /\ console (gui (fold_left apply_effect effects w))
     = console (gui w) ++ lines_of effects.
Proof.
  revert w; induction effects as [|x effects IH]; intros w.
  - cbn; now rewrite app_nil_r.
  - cbn [fold_left]; destruct (IH (apply_effect w x)) as [H1 H2].
    rewrite H1, H2; destruct x as [m|sig]; cbn; [|easy].
    now rewrite <- app_assoc.
Qed.

(** One action of the system, other than the slot of "connected". *)
Lemma calm_world_step (a : Action) (w : World) :
  delivers_connected a w = false ->
  calm (gui w) (gui (world_step a w)).
Proof.
  destruct a as [u|db|j ws|r|up]; cbn [world_step delivers_connected].
  - intros _; destruct (ui_enabled u (gui w));
      [apply calm_ui | apply calm_refl].
  - destruct (queue w) as [|sig rest]; intros H; [apply calm_refl|].
    cbn [main_ran gui]; apply calm_slot.
    now destruct sig.
  - intros _; generalize (observed j ws w); clear ws; intros ws.
    destruct (nth_error (workers w) j) as [pc|]; [|apply calm_refl].
    pose proof (calm_worker_step ws pc (gui w)) as H.
    now destruct (worker_step ws pc (gui w)) as [[[pc' self'] sg] iss].
  - intros _; destruct (scans w) as [|n]; [apply calm_refl|].
    match goal with
    | |- calm _ (gui (fold_left _ _ ?w0)) =>
        destruct (effects_gui (run_scan_safe r) w0) as [H1 H2]
    end.
    unfold calm, auto_attempts; rewrite H1, H2; cbn [gui].
    rewrite filter_app, scan_lines_no_retry, app_nil_r.
    repeat split; auto.
  - intros _; destruct (ble_client (gui w));
      [apply calm_set_ble_client | apply calm_refl].
Qed.

Lemma calm_run (actions : list Action) (w : World) :
  no_success actions w = true ->
  calm (gui w) (gui (run actions w)).
Proof.
  revert w; induction actions as [|a rest IH]; intros w H.
  - apply calm_refl.
  - cbn [no_success] in H; apply andb_true_iff in H as [Ha Hrest].
    apply negb_true_iff in Ha.
    apply calm_trans with (gui (world_step a w));
      [now apply calm_world_step | now apply IH].
Qed.

Lemma ticks_change_nothing (w : World) (n : nat) :
  world_step (User Tick) w = w ->
  run (repeat (User Tick) n) w = w.
Proof.
  intros H; induction n as [|n IH]; [reflexivity|].
  cbn [repeat]; unfold run in *; cbn [fold_left]; now rewrite H.
Qed.

(** C3, on the program: in every run in which no "connected" status is
    processed the monitor starts at most one automatic attempt, and
    none at all once [is_connected] is false.  When the link is lost
    for good with automatic retry on and three retries allowed, one
    attempt is made, the counter stops at 1 and no number of further
    timer ticks changes anything; when a read raises, no attempt is
    made. *)
Theorem automatic_retry_happens_once :
  (forall (actions : list Action) (w : World),
     no_success actions w = true ->
     (auto_attempts (gui (run actions w)) <= auto_attempts (gui w) + 1)%nat
     /\ (is_connected (gui w) = false ->
         auto_attempts (gui (run actions w)) = auto_attempts (gui w)))
  /\ (let w := run link_lost_for_good boot in
      auto_retry (gui w) = true
      /\ max_retries (gui w) = 3
      /\ no_success after_link_loss (run streaming boot) = true
      /\ auto_attempts (gui w) = 1%nat
      /\ retry_count (gui w) = 1
      /\ connection_threads (gui w) = 2%nat
      /\ workers w = [Finished; Finished]
      /\ forall n, run (repeat (User Tick) n) w = w)
  /\ (let w := run read_fails boot in
      auto_retry (gui w) = true
      /\ auto_attempts (gui w) = 0%nat
      /\ connection_threads (gui w) = 1%nat).
Proof.
  split; [|split].
  - intros actions w H; destruct (calm_run actions w H) as [H1 H2]; split.
    + destruct (is_connected (gui w)), (is_connected (gui (run actions w)));
        lia.
    + intros Hc; now destruct (H1 Hc).
  - cbv zeta; do 7 (split; [vm_compute; reflexivity|]).
    intros n; apply ticks_change_nothing; vm_compute; reflexivity.
  - vm_compute; repeat split.
Qed.

Lemma automatic_retry_happens_once_witness :
  (auto_attempts (gui (run after_link_loss (run streaming boot)))
   <= auto_attempts (gui (run streaming boot)) + 1)%nat.
Proof.
  exact (proj1 (proj1 automatic_retry_happens_once
                  after_link_loss (run streaming boot) eq_refl)).
Defined.

(** ** Stopping the read loop *)

Lemma count_tagged {A : Type} (f : A -> bool) (i j : nat) (l : list A) :
  List.length
    (filter (fun c => ((fst c =? i)%nat && f (snd c))%bool) (map (pair j) l))
  = if (j =? i)%nat then List.length (filter f l) else 0%nat.
Proof.
  induction l as [|x l IH]; cbn [map filter fst snd].
  - now destruct (j =? i)%nat.
  - destruct (j =? i)%nat eqn:E; cbn [andb].
    + destruct (f x); cbn [List.length]; now rewrite IH.
    + exact IH.
Qed.

(** Reads and readings of a started thread after one action. *)
Lemma effects_of_world_step (a : Action) (w : World) (i : nat) :
  (i < List.length (workers w))%nat ->
  reads_by i (world_step a w)
  = (reads_by i w
     + match a with
       | Worker j ws =>
           if (j =? i)%nat
           then List.length
                  (filter is_read
                     (snd (worker_step (observed j ws w)
                             (pc_of w i) (gui w))))
           else 0
       | _ => 0
       end)%nat
  /\ readings_by i (world_step a w)
     = (readings_by i w
        + match a with
          | Worker j ws =>
              if (j =? i)%nat
              then List.length
                     (filter is_reading
                        (snd (fst (worker_step (observed j ws w)
                                     (pc_of w i) (gui w)))))
              else 0
          | _ => 0
          end)%nat.
Proof.
  intros Hi; unfold reads_by, readings_by, pc_of.
  destruct a as [u|db|j ws|r|up]; cbn [world_step].
  - destruct (ui_enabled u (gui w)); cbn; lia.
  - destruct (queue w); cbn; lia.
  - generalize (observed j ws w); clear ws; intros ws.
    destruct (nth_error (workers w) j) as [pc|] eqn:Hj.
    + destruct (Nat.eqb_spec j i) as [->|Hne].
      * rewrite (nth_error_nth _ _ Finished Hj).
        destruct (worker_step ws pc (gui w)) as [[[pc' self'] sg] iss].
        cbn [calls sent fst snd].
        rewrite !filter_app, !length_app, !count_tagged, Nat.eqb_refl.
        split; reflexivity.
      * destruct (worker_step ws pc (gui w)) as [[[pc' self'] sg] iss].
        cbn [calls sent fst snd].
        rewrite !filter_app, !length_app, !count_tagged.
        destruct (Nat.eqb_spec j i); [congruence|lia].
    + apply nth_error_None in Hj.
      destruct (Nat.eqb_spec j i); lia.
  - destruct (scans w); [lia|].
    destruct (effects_keep_workers (run_scan_safe r)
                {| gui := gui w; workers := workers w; scans := n;
                   queue := queue w; sent := sent w; calls := calls w |})
      as (_ & -> & ->); cbn; lia.
  - destruct (ble_client (gui w)); cbn; lia.
Qed.

(** With [is_connected] false a thread only moves towards the end: the
    test of the loop condition fails, and before the test at most the
    read and the reading of the current round happen. *)
Lemma worker_winds_down (ws : WorkerStep) (pc : Pc) (self : Dashboard) :
  is_connected self = false ->
  (steps_to_exit (fst (fst (fst (worker_step ws pc self))))
   <= steps_to_exit pc)%nat
  /\ (List.length (filter is_read (snd (worker_step ws pc self)))
      + reads_left (fst (fst (fst (worker_step ws pc self))))
      <= reads_left pc)%nat
  /\ (List.length
        (filter is_reading (snd (fst (worker_step ws pc self))))
      + readings_left (fst (fst (fst (worker_step ws pc self))))
      <= readings_left pc)%nat.
Proof.
  intros Hdown; destruct pc, ws; cbn [worker_step];
    try destruct (ble_client self) as [client_is_connected|];
    unfold loop_condition; rewrite ?Hdown, ?andb_false_r; cbn [andb];
    repeat match goal with
           | |- context [if ?x then _ else _] => destruct x
           end;
    cbn; repeat split; lia.
Qed.

Lemma winds_down_step (a : Action) (w : World) (i : nat) :
  is_connected (gui w) = false ->
  (i < List.length (workers w))%nat ->
  (steps_to_exit (pc_of (world_step a w) i) <= steps_to_exit (pc_of w i))%nat
  /\ (reads_by i (world_step a w) + reads_left (pc_of (world_step a w) i)
      <= reads_by i w + reads_left (pc_of w i))%nat
  /\ (readings_by i (world_step a w)
      + readings_left (pc_of (world_step a w) i)
      <= readings_by i w + readings_left (pc_of w i))%nat.
Proof.
  intros Hdown Hi.
  destruct (effects_of_world_step a w i Hi) as [-> ->].
  rewrite (pc_of_world_step a w i Hi).
  destruct a as [u|db|j ws|r|up]; try (repeat split; lia).
  destruct (j =? i)%nat; [|repeat split; lia].
  destruct (worker_winds_down (observed j ws w) (pc_of w i) (gui w) Hdown)
    as (H1 & H2 & H3).
  repeat split; lia.
Qed.

Lemma winds_down_run (actions : list Action) (w : World) (i : nat) :
  no_success actions w = true ->
  is_connected (gui w) = false ->
  (i < List.length (workers w))%nat ->
  is_connected (gui (run actions w)) = false
  /\ (i < List.length (workers (run actions w)))%nat
  /\ (steps_to_exit (pc_of (run actions w) i) <= steps_to_exit (pc_of w i))%nat
  /\ (reads_by i (run actions w) + reads_left (pc_of (run actions w) i)
      <= reads_by i w + reads_left (pc_of w i))%nat
  /\ (readings_by i (run actions w)
      + readings_left (pc_of (run actions w) i)
      <= readings_by i w + readings_left (pc_of w i))%nat.
Proof.
  revert w; induction actions as [|a rest IH]; intros w Hrun Hdown Hi.
  - cbn; repeat split; auto.
  - cbn [no_success] in Hrun; apply andb_true_iff in Hrun as [Ha Hrest].
    apply negb_true_iff in Ha.
    destruct (calm_world_step a w Ha) as [Hcalm _].
    destruct (Hcalm Hdown) as [Hdown' _].
    pose proof (workers_grow a w) as Hgrow.
    destruct (winds_down_step a w i Hdown Hi) as (S1 & S2 & S3).
    destruct (IH (world_step a w) Hrest Hdown' ltac:(lia))
      as (R0 & R1 & R2 & R3 & R4).
    change (run (a :: rest) w) with (run rest (world_step a w)).
    repeat split; auto; lia.
Qed.

(** A finished thread stays finished and silent, whatever happens. *)
Lemma finished_is_final (actions : list Action) (w : World) (i : nat) :
  (i < List.length (workers w))%nat ->
  pc_of w i = Finished ->
  pc_of (run actions w) i = Finished
  /\ reads_by i (run actions w) = reads_by i w
  /\ readings_by i (run actions w) = readings_by i w.
Proof.
  revert w; induction actions as [|a rest IH]; intros w Hi Hpc.
  - now cbn.
  - change (run (a :: rest) w) with (run rest (world_step a w)).
    pose proof (workers_grow a w) as Hgrow.
    destruct (effects_of_world_step a w i Hi) as [Hr Hg].
    pose proof (pc_of_world_step a w i Hi) as Hp.
    assert (Hp' : pc_of (world_step a w) i = Finished
                  /\ reads_by i (world_step a w) = reads_by i w
                  /\ readings_by i (world_step a w) = readings_by i w).
    { rewrite Hp, Hr, Hg, Hpc.
      destruct a as [u|db|j ws|r|up]; try (repeat split; lia).
      destruct (j =? i)%nat; [|repeat split; lia].
      generalize (observed j ws w); intros seen.
      destruct seen; cbn; repeat split; lia. }
    destruct Hp' as (P1 & P2 & P3).
    destruct (IH (world_step a w) ltac:(lia) P1) as (Q1 & Q2 & Q3).
    repeat split; congruence.
Qed.

Lemma stop_clears_flags (w : World) :
  is_connected (gui (stop w)) = false
  /\ connection_active (gui (stop w)) = false.
Proof.
  unfold stop, safe_disconnect_device; cbn [main_ran gui].
  split; match goal with
         | |- context [match ?x with _ => _ end] => now destruct x
         end.
Qed.

Lemma stop_keeps_threads (w : World) (i : nat) :
  (i < List.length (workers w))%nat ->
  (i < List.length (workers (stop w)))%nat
  /\ pc_of (stop w) i = pc_of w i
  /\ reads_by i (stop w) = reads_by i w
  /\ readings_by i (stop w) = readings_by i w.
Proof.
  intros Hi; unfold stop, pc_of; cbn [main_ran workers].
  rewrite length_app, app_nth1 by assumption.
  repeat split; lia.
Qed.

(** C6, as the program has it: after [safe_disconnect_device], and for
    as long as no "connected" status is processed, [is_connected] stays
    false and a connection thread that was inside the read loop only
    moves towards its end: it issues at most the read and emits at most
    the reading of the round it is in (none when it was sleeping or at
    the test), it leaves the loop at its next test of the condition,
    and once it has left it stays finished and issues and emits nothing
    more. *)
Theorem stop_ends_the_read_loop
  (w : World) (i : nat) (actions : list Action) :
  in_loop (pc_of w i) = true ->
  no_success actions (stop w) = true ->
  let w' := run actions (stop w) in
  is_connected (gui (stop w)) = false
  /\ connection_active (gui (stop w)) = false
  /\ is_connected (gui w') = false
  /\ (steps_to_exit (pc_of w' i) <= steps_to_exit (pc_of w i))%nat
  /\ (reads_by i w' + reads_left (pc_of w' i)
      <= reads_by i w + reads_left (pc_of w i))%nat
  /\ (readings_by i w' + readings_left (pc_of w' i)
      <= readings_by i w + readings_left (pc_of w i))%nat
  /\ (pc_of w' i = AtLoopTest ->
      pc_of (world_step (Worker i TestLoop) w') i = Finished)
  /\ (pc_of w' i = Finished ->
      forall more : list Action,
        pc_of (run more w') i = Finished
        /\ reads_by i (run more w') = reads_by i w'
        /\ readings_by i (run more w') = readings_by i w').
Proof.
  intros Hloop Hquiet; cbv zeta.
  assert (Hi : (i < List.length (workers w))%nat).
  { apply started_of_pc; intros H; now rewrite H in Hloop. }
  destruct (stop_clears_flags w) as [Hc Ha].
  destruct (stop_keeps_threads w i Hi) as (Hi' & Hpc & Hr & Hg).
  destruct (winds_down_run actions (stop w) i Hquiet Hc Hi')
    as (R0 & R1 & R2 & R3 & R4).
  rewrite Hpc, Hr in R3; rewrite Hpc, Hg in R4; rewrite Hpc in R2.
  repeat split; try assumption.
  - intros Htest.
    rewrite pc_of_world_step, Nat.eqb_refl, Htest by assumption.
    now apply flags_down_stop_loop.
  - now apply finished_is_final.
  - now apply finished_is_final.
  - now apply finished_is_final.
Qed.

Lemma stop_ends_the_read_loop_witness :
  pc_of (world_step (Worker 0 TestLoop)
           (run [User Tick; Worker 0 Wake] (stop (run streaming boot)))) 0
  = Finished.
Proof.
  pose proof (stop_ends_the_read_loop (run streaming boot) 0
                [User Tick; Worker 0 Wake] eq_refl eq_refl) as H.
  destruct H as (_ & _ & _ & _ & _ & _ & H & _).
  exact (H eq_refl).
Defined.

(** C6, as stated, fails: thread 0 sleeps between two samples when the
    disconnect button is pressed; the user connects again and the new
    thread's "connected" status is processed before thread 0 wakes up;
    at its next test thread 0 finds the condition true, stays in the
    loop, and issues another read and emits another reading. *)
Lemma stop_is_overtaken_by_reconnect :
  let w := run streaming boot in
  let stopped := world_step (User ClickDisconnect) w in
  let boundary :=
    run (reconnect_during_sleep ++ [Worker 0 Wake; Worker 0 TestLoop])
        stopped in
  let later :=
    run [Worker 0 IssueRead; Worker 0 (ReadReturns [x2b; x00])] boundary in
  pc_of w 0 = AwaitSleep
  /\ stopped = stop w
  /\ is_connected (gui stopped) = false
  /\ connection_active (gui stopped) = false
  /\ pc_of boundary 0 = InLoopBody
  /\ reads_by 0 later = S (reads_by 0 stopped)
  /\ readings_by 0 later = S (readings_by 0 stopped).
Proof.
  cbv zeta; do 6 (split; [vm_compute; reflexivity|]).
  vm_compute; reflexivity.
Qed.


(** ** Errors and the read loop *)

(** C8, as the program has it: whatever the message and wherever it
    comes from, the slot of an error signal leaves both connection
    flags false, so the condition of the read loop is false for every
    state of the link.  After the signal has come out of the queue, and
    for as long as no "connected" status is processed, [is_connected]
    stays false and a connection thread that was inside the read loop
    only moves towards its end: it issues at most the read and emits at
    most the reading of the round it is in, leaves the loop at its next
    test of the condition, and stays finished and silent afterwards. *)
Theorem error_clears_both_flags (error_message : string) (self : Dashboard) :
  let self' := on_error_occurred error_message self in
  is_connected self' = false
  /\ connection_active self' = false
  /\ (forall client_is_connected,
        loop_condition client_is_connected self' = false)
  /\ (forall db, slot (error_occurred error_message) db self = self')
  /\ fst (fst (fst (worker_step TestLoop AtLoopTest self'))) = Finished
  /\ (forall (w : World) (i : nat) (db : DbOutcome) (rest : list Signal)
             (actions : list Action),
        gui w = self ->
        queue w = error_occurred error_message :: rest ->
        in_loop (pc_of w i) = true ->
        no_success actions (world_step (Deliver db) w) = true ->
        let w' := run actions (world_step (Deliver db) w) in
        is_connected (gui w') = false
        /\ (steps_to_exit (pc_of w' i) <= steps_to_exit (pc_of w i))%nat
        /\ (reads_by i w' + reads_left (pc_of w' i)
            <= reads_by i w + reads_left (pc_of w i))%nat
        /\ (readings_by i w' + readings_left (pc_of w' i)
            <= readings_by i w + readings_left (pc_of w i))%nat
        /\ (pc_of w' i = AtLoopTest ->
            pc_of (world_step (Worker i TestLoop) w') i = Finished)
        /\ (pc_of w' i = Finished ->
            forall more : list Action,
              pc_of (run more w') i = Finished
              /\ reads_by i (run more w') = reads_by i w'
              /\ readings_by i (run more w') = readings_by i w')).
Proof.
  cbv zeta.
  assert (Hcond : forall c, loop_condition c
                              (on_error_occurred error_message self) = false).
  { intros c; unfold loop_condition; cbn.
    now rewrite andb_false_r. }
  do 5 (split; [first [reflexivity | assumption
                      | now apply flags_down_stop_loop]|]).
  intros w i db rest actions Hgui Hq Hloop Hquiet; subst self.
  assert (Hi : (i < List.length (workers w))%nat).
  { apply started_of_pc; intros H; now rewrite H in Hloop. }
  set (w1 := world_step (Deliver db) w) in *.
  assert (Hi1 : (i < List.length (workers w1))%nat).
  { pose proof (workers_grow (Deliver db) w) as H; fold w1 in H; lia. }
  assert (Hpc1 : pc_of w1 i = pc_of w i).
  { unfold w1; now rewrite pc_of_world_step. }
  assert (Hg1 : is_connected (gui w1) = false).
  { unfold w1; cbn [world_step]; now rewrite Hq. }
  destruct (effects_of_world_step (Deliver db) w i Hi) as [Hr Hg].
  fold w1 in Hr, Hg; rewrite Nat.add_0_r in Hr, Hg.
  destruct (winds_down_run actions w1 i Hquiet Hg1 Hi1)
    as (R0 & R1 & R2 & R3 & R4).
  rewrite Hpc1, Hr in R3; rewrite Hpc1, Hg in R4; rewrite Hpc1 in R2.
  do 4 (split; [assumption|]); split.
  - intros Htest.
    rewrite pc_of_world_step, Nat.eqb_refl, Htest by assumption.
    now apply flags_down_stop_loop.
  - intros Hend more; now apply finished_is_final.
Qed.

Lemma error_clears_both_flags_witness :
  pc_of (world_step (Worker 0 TestLoop)
           (run [Deliver DbOk; Worker 0 Wake]
                (world_step (Deliver DbOk)
                   (run scan_error_while_streaming boot)))) 0
  = Finished.
Proof.
  pose proof (error_clears_both_flags "Scan error: no adapter"
                (gui (run scan_error_while_streaming boot))) as H.
  destruct H as (_ & _ & _ & _ & _ & H).
  specialize (H (run scan_error_while_streaming boot) 0%nat DbOk
                [scan_completed false; scan_completed true]
                [Deliver DbOk; Worker 0 Wake]
                eq_refl eq_refl eq_refl eq_refl).
  destruct H as (_ & _ & _ & _ & H & _).
  exact (H eq_refl).
Defined.

(** C8, as stated, fails: thread 0 sleeps between two samples when the
    error of a failed scan is processed; the slot of the error enables
    the connect button, the user connects again and the new thread's
    "connected" status is processed before thread 0 wakes up; at its
    next test thread 0 finds the condition true, stays in the loop, and
    issues another read and emits another reading. *)
Lemma error_is_overtaken_by_reconnect :
  let w := run scan_error_while_streaming boot in
  let processed := world_step (Deliver DbOk) w in
  let boundary :=
    run (reconnect_after_error ++ [Worker 0 Wake; Worker 0 TestLoop])
        processed in
  let later :=
    run [Worker 0 IssueRead; Worker 0 (ReadReturns [x2b; x00])] boundary in
  pc_of w 0 = AwaitSleep
  /\ queue w
     = [error_occurred "Scan error: no adapter";
        scan_completed false; scan_completed true]
  /\ is_connected (gui processed) = false
  /\ connection_active (gui processed) = false
  /\ pc_of boundary 0 = InLoopBody
  /\ reads_by 0 later = S (reads_by 0 processed)
  /\ readings_by 0 later = S (readings_by 0 processed).
Proof.
  cbv zeta; do 6 (split; [vm_compute; reflexivity|]).
  vm_compute; reflexivity.
Qed.

(** * Further properties *)

(** ** Invariants along every run *)

Lemma effects_log (effects : list Effect) (w : World) :
  gui (fold_left apply_effect effects w)
  = fold_left (fun g m => log_message m g) (lines_of effects) (gui w).
Proof.
  revert w; induction effects as [|x effects IH]; intros w; [reflexivity|].
  cbn [fold_left]; rewrite IH; now destruct x.
Qed.

Lemma scan_lines_plain (r : ScanRun) :
  Forall (fun m => is_auto_retry m = false) (lines_of (run_scan_safe r)).
Proof.
  pose proof (scan_lines_no_retry r) as H.
  induction (lines_of (run_scan_safe r)) as [|m l IH]; [constructor|].
  cbn [filter] in H; destruct (is_auto_retry m) eqn:E; [discriminate|].
  constructor; auto.
Qed.

Section Invariants.

Variable P : Dashboard -> Prop.
Variable allowed : UiEvent -> bool.

Hypothesis P_ui :
  forall alive u self, allowed u = true -> P self -> P (ui alive u self).
Hypothesis P_slot : forall sig db self, P self -> P (slot sig db self).
Hypothesis P_client : forall c self, P self -> P (set_ble_client c self).
Hypothesis P_log :
  forall m self, is_auto_retry m = false -> P self -> P (log_message m self).

Lemma invariant_logs (l : list LogMsg) (self : Dashboard) :
  Forall (fun m => is_auto_retry m = false) l ->
  P self ->
  P (fold_left (fun g m => log_message m g) l self).
Proof.
  intros Hl; revert self; induction Hl as [|m l Hm _ IH]; intros self Hp.
  - exact Hp.
  - cbn [fold_left]; apply IH; now apply P_log.
Qed.

Lemma invariant_world_step (a : Action) (w : World) :
  match a with User u => allowed u = true | _ => True end ->
  P (gui w) ->
  P (gui (world_step a w)).
Proof.
  intros Ha Hp; destruct a as [u|db|j ws|r|up]; cbn [world_step].
  - destruct (ui_enabled u (gui w)); [now apply P_ui | exact Hp].
  - destruct (queue w) as [|sig rest]; [exact Hp | now apply P_slot].
  - generalize (observed j ws w); clear ws; intros ws.
    destruct (nth_error (workers w) j) as [pc|]; [|exact Hp].
    pose proof (worker_step_gui ws pc (gui w)) as H.
    destruct (worker_step ws pc (gui w)) as [[[pc' self'] sg] iss].
    cbn [fst snd gui] in *.
    destruct H as [-> | [c ->]]; [exact Hp | now apply P_client].
  - destruct (scans w) as [|n]; [exact Hp|].
    rewrite effects_log; apply invariant_logs;
      [apply scan_lines_plain | exact Hp].
  - destruct (ble_client (gui w)); [now apply P_client | exact Hp].
Qed.

Lemma invariant_run (actions : list Action) (w : World) :
  Forall (fun a => match a with User u => allowed u = true | _ => True end)
         actions ->
  P (gui w) ->
  P (gui (run actions w)).
Proof.
  intros Hall; revert w; induction Hall as [|a rest Ha _ IH]; intros w Hp.
  - exact Hp.
  - change (run (a :: rest) w) with (run rest (world_step a w)).
    apply IH; now apply invariant_world_step.
Qed.

End Invariants.

Ltac open_dashboard self :=
  destruct self as [addr th running conn act client n mx auto b1 b2 b3 lbl
                      rows con em thr].

Ltac settle :=
  cbn in *; repeat split; intros; try discriminate; try congruence; try lia.

Lemma consistent_ui (alive : bool) (u : UiEvent) (self : Dashboard) :
  consistent self -> consistent (ui alive u self).
Proof.
  unfold consistent; intros (Hc & Hr & Hm); open_dashboard self.
  cbn in Hc, Hr, Hm; subst mx.
  destruct u as [| | | | |pick db|v]; cbn [ui].
  - unfold monitor_connection, safe_connect_device, emit_error_occurred,
      on_error_occurred, log_message, start_thread; cbn.
    destruct running, conn, client as [[|]|], auto; cbn;
      try destruct (Hc eq_refl) as (Ha & Hn & Hb); subst;
      try (destruct (Z.ltb_spec n 3)); cbn;
      try destruct addr as [[|c a]|]; settle;
      try (destruct (Hc eq_refl) as (Ha & Hn & Hb); congruence).
  - unfold safe_scan_devices, log_message, start_thread.
    destruct alive; settle; now apply Hc.
  - unfold safe_connect_device, emit_error_occurred, on_error_occurred,
      log_message, start_thread.
    destruct addr as [[|c a]|]; settle; now apply Hc.
  - unfold safe_disconnect_device, log_message, start_thread.
    destruct client; settle.
  - unfold toggle_auto_retry, log_message.
    destruct auto; settle; now apply Hc.
  - unfold simulate_torque_data, on_data_received, save_torque_value,
      log_message; cbn.
    destruct db as [|[] e]; cbn;
      match goal with |- context [?x >? ?y] => destruct (x >? y) end;
      settle; now apply Hc.
  - unfold update_threshold; settle; now apply Hc.
Qed.

Lemma consistent_slot (sig : Signal) (db : DbOutcome) (self : Dashboard) :
  consistent self -> consistent (slot sig db self).
Proof.
  unfold consistent; intros (Hc & Hr & Hm); open_dashboard self.
  cbn in Hc, Hr, Hm; subst mx.
  destruct sig as [v|status|a nm|msg|ok]; cbn [slot].
  - unfold on_data_received, save_torque_value, log_message; cbn.
    destruct db as [|[] e]; cbn;
      match goal with |- context [?x >? ?y] => destruct (x >? y) end;
      settle; now apply Hc.
  - unfold on_connection_status, log_message.
    destruct (status =? "connected")%string;
      [|destruct (status =? "failed")%string]; settle; now apply Hc.
  - unfold on_device_found, log_message; settle; now apply Hc.
  - unfold on_error_occurred, log_message; settle.
  - unfold on_scan_completed, log_message; destruct ok; settle;
      now apply Hc.
Qed.

(** X1: in every state the system can reach from start-up, the retry
    counter is 0 or 1 and three retries are allowed; and while the
    dashboard believes it is connected, the connection is marked active,
    the retry counter is 0 and the disconnect button is enabled. *)
Theorem reachable_states_are_consistent (actions : list Action) :
  consistent (gui (run actions boot)).
Proof.
  apply invariant_run with (allowed := fun _ => true).
  - intros alive u self _; apply consistent_ui.
  - apply consistent_slot.
  - intros c self; unfold consistent; open_dashboard self; settle;
      now apply H.
  - intros m self _; unfold consistent; open_dashboard self; settle;
      now apply H.
  - now apply Forall_forall; intros [] _.
  - unfold consistent; settle.
Qed.


Ltac unfold_methods :=
  unfold ui, slot, monitor_connection, safe_scan_devices,
    safe_connect_device, safe_disconnect_device, toggle_auto_retry,
    simulate_torque_data, update_threshold, on_data_received,
    save_torque_value, on_connection_status, on_device_found,
    on_error_occurred, on_scan_completed, emit_error_occurred,
    log_message, start_thread.

Ltac split_cases :=
  repeat match goal with
         | |- context [match ?x with _ => _ end] => destruct x; cbn
         end.

Lemma forall_allowed (allowed : UiEvent -> bool) (actions : list Action) :
  (forall u, In (User u) actions -> allowed u = true) ->
  Forall (fun a => match a with User u => allowed u = true | _ => True end)
         actions.
Proof.
  intros H; apply Forall_forall; intros [u| | | |] Hin; auto.
Qed.

Lemma auto_attempts_log (m : LogMsg) (self : Dashboard) :
  auto_attempts (log_message m self)
  = (auto_attempts self + if is_auto_retry m then 1 else 0)%nat.
Proof.
  unfold auto_attempts, log_message; cbn [console set_console].
  rewrite filter_app, length_app; cbn [filter].
  destruct (is_auto_retry m); reflexivity.
Qed.

(** X2: automatic retry is off after start-up, and as long as the
    toggle button is not pressed it stays off and the monitor starts no
    automatic attempt, whatever else happens. *)
Theorem no_automatic_retry_unless_switched_on
  (actions : list Action) (w : World) :
  auto_retry (gui w) = false ->
  Forall (fun a => is_toggle a = false) actions ->
  auto_retry (gui (run actions w)) = false
  /\ auto_attempts (gui (run actions w)) = auto_attempts (gui w).
Proof.
  intros Hoff Hno.
  apply invariant_run
    with (P := fun self => auto_retry self = false
                           /\ auto_attempts self = auto_attempts (gui w))
         (allowed := fun u => negb (is_toggle (User u))).
  - intros alive u self Hu [Ha Hn]; open_dashboard self; cbn in Ha; subst.
    unfold auto_attempts in *; cbn [console] in *.
    destruct u; try discriminate; unfold_methods; cbn; split_cases;
      rewrite ?filter_app, ?length_app; cbn; split; auto; lia.
  - intros sig db self [Ha Hn]; open_dashboard self; cbn in Ha; subst.
    unfold auto_attempts in *; cbn [console] in *.
    destruct sig; unfold_methods; cbn; split_cases;
      rewrite ?filter_app, ?length_app; cbn; split; auto; lia.
  - intros c self [Ha Hn]; open_dashboard self; now cbn in *.
  - intros m self Hm [Ha Hn]; split; [now open_dashboard self|].
    now rewrite auto_attempts_log, Hm, Nat.add_0_r.
  - apply forall_allowed; intros u Hin.
    rewrite Forall_forall in Hno; now rewrite (Hno _ Hin).
  - now split.
Qed.

Lemma no_automatic_retry_unless_switched_on_witness :
  auto_attempts
    (gui (run (connect_ok 0 ++ one_reading 0 ++ [Link false; User Tick])
              (run [User ClickScan;
                    ScanWorker (Scans (Discovered [sensor]));
                    Deliver DbOk; Deliver DbOk] boot)))
  = 0%nat.
Proof.
  pose proof (no_automatic_retry_unless_switched_on
                (connect_ok 0 ++ one_reading 0 ++ [Link false; User Tick])
                (run [User ClickScan;
                      ScanWorker (Scans (Discovered [sensor]));
                      Deliver DbOk; Deliver DbOk] boot)
                eq_refl) as H.
  refine (eq_trans (proj2 (H _)) eq_refl).
  repeat constructor.
Defined.

(** X4: the stored history only grows at its end: whatever happens,
    the rows present before are still there, in the same order, and new
    rows come after them. *)
Theorem history_is_append_only (actions : list Action) (w : World) :
  exists added : list Z,
    torque_data (gui (run actions w)) = torque_data (gui w) ++ added.
Proof.
  apply invariant_run
    with (P := fun self => exists added,
                   torque_data self = torque_data (gui w) ++ added)
         (allowed := fun _ => true).
  - intros alive u self _ [added H]; open_dashboard self; cbn in H; subst.
    destruct u; unfold_methods; cbn; split_cases;
      eexists; rewrite <- ?app_assoc; reflexivity.
  - intros sig db self [added H]; open_dashboard self; cbn in H; subst.
    destruct sig; unfold_methods; cbn; split_cases;
      eexists; rewrite <- ?app_assoc; reflexivity.
  - intros c self H; now open_dashboard self.
  - intros m self _ H; now open_dashboard self.
  - now apply Forall_forall; intros [] _.
  - exists []; now rewrite app_nil_r.
Qed.


(** ** A scan and the slots of its signals *)

Lemma deliver_all_app (a b : list Signal) (db : DbOutcome)
  (self : Dashboard) :
  deliver_all (a ++ b) db self = deliver_all b db (deliver_all a db self).
Proof. apply fold_left_app. Qed.

Lemma run_scan_safe_signals (r : ScanRun) :
  exists before,
    signals_of (run_scan_safe r) = before ++ [scan_completed true].
Proof.
  unfold run_scan_safe; rewrite signals_of_app; eauto.
Qed.

(** X5: however a scan ends, its last signal is a completion, so once
    the signals of the scan have been processed the scan button is
    enabled again. *)
Theorem scan_button_comes_back
  (r : ScanRun) (db : DbOutcome) (self : Dashboard) :
  btn_scan_enabled (deliver_all (signals_of (run_scan_safe r)) db self)
  = true.
Proof.
  destruct (run_scan_safe_signals r) as [before ->].
  rewrite deliver_all_app.
  now destruct (deliver_all before db self).
Qed.

Lemma scan_loop_first (before after : list Bleak.BLEDevice)
  (d : Bleak.BLEDevice) :
  Forall (fun x => ~ advertises_sensor x) before ->
  advertises_sensor d ->
  scan_loop (before ++ d :: after)
  = (map (fun x => Say (seen_line x)) before
       ++ [Say (seen_line d);
           Emit (device_found (Bleak.address d) (shown_name d))],
     true).
Proof.
  intros Hbefore Hd; induction Hbefore as [|x before Hx _ IH].
  - cbn [app scan_loop map].
    now apply name_matches_spec in Hd as ->.
  - cbn [app scan_loop map].
    destruct (name_matches (shown_name x)) eqn:Hm.
    + now apply name_matches_spec in Hm.
    + now rewrite IH.
Qed.

Lemma found_signals (before after : list Bleak.BLEDevice)
  (d : Bleak.BLEDevice) :
  Forall (fun x => ~ advertises_sensor x) before ->
  advertises_sensor d ->
  signals_of (run_scan_safe (Scans (Discovered (before ++ d :: after))))
  = [device_found (Bleak.address d) (shown_name d); scan_completed true].
Proof.
  intros Hbefore Hd; unfold run_scan_safe; cbn [scan_ble_devices_safe].
  rewrite (scan_loop_first before after d Hbefore Hd), signals_of_app.
  change (signals_of (Say ?x :: Say ?y :: ?l)) with (signals_of l).
  now rewrite app_nil_r, signals_of_app, signals_of_seen.
Qed.

Lemma nothing_found_signals (devices : list Bleak.BLEDevice) :
  Forall (fun x => ~ advertises_sensor x) devices ->
  signals_of (run_scan_safe (Scans (Discovered devices)))
  = [scan_completed true].
Proof.
  intros Hall; unfold run_scan_safe; cbn [scan_ble_devices_safe].
  rewrite (scan_loop_no_match devices Hall), signals_of_app.
  change (signals_of (Say ?x :: Say ?y :: ?l)) with (signals_of l).
  now rewrite signals_of_app, signals_of_seen.
Qed.

(** X6: when a scan meets a device that advertises the sensor, then
    after its signals have been processed the stored address is the
    address of the first such device, the retry counter is 0 and the
    connect and scan buttons are enabled, while the connection flags
    are as they were. *)
Theorem found_device_becomes_the_target
  (before after : list Bleak.BLEDevice) (d : Bleak.BLEDevice)
  (db : DbOutcome) (self : Dashboard) :
  Forall (fun x => ~ advertises_sensor x) before ->
  advertises_sensor d ->
  let self' :=
    deliver_all
      (signals_of (run_scan_safe (Scans (Discovered (before ++ d :: after)))))
      db self in
  SENSOR_ADDRESS self' = Some (Bleak.address d)
  /\ retry_count self' = 0
  /\ btn_connect_enabled self' = true
  /\ btn_scan_enabled self' = true
  /\ is_connected self' = is_connected self
  /\ connection_active self' = connection_active self.
Proof.
  intros Hbefore Hd; cbv zeta.
  rewrite (found_signals before after d Hbefore Hd).
  open_dashboard self; cbn; repeat split.
Qed.

Lemma sensor_advertises : advertises_sensor sensor.
Proof.
  exists "ESP32_Torque"%string; repeat split; [discriminate|].
  now exists ""%string, "rque"%string.
Defined.

Lemma others_do_not_advertise :
  Forall (fun x => ~ advertises_sensor x) [wristband; nameless].
Proof.
  repeat constructor; intros A; apply name_matches_spec in A; discriminate.
Defined.

Lemma found_device_becomes_the_target_witness :
  SENSOR_ADDRESS
    (deliver_all
       (signals_of
          (run_scan_safe
             (Scans
                (Discovered ([wristband; nameless] ++ sensor :: [sensor])))))
       DbOk init)
  = Some "24:6F:28:AA:BB:CC"%string.
Proof.
  exact (proj1 (found_device_becomes_the_target
                  [wristband; nameless] [sensor] sensor DbOk init
                  others_do_not_advertise sensor_advertises)).
Defined.

Lemma main_ran_without_thread (self : Dashboard) (w : World) :
  threads self = threads (gui w) ->
  main_ran self w
  = {| gui := self; workers := workers w; scans := scans w;
       queue := queue w; sent := sent w; calls := calls w |}.
Proof.
  intros H; unfold main_ran; rewrite H, skipn_all; cbn.
  now rewrite app_nil_r, Nat.add_0_r.
Qed.

Lemma logs_extend_console (l : list LogMsg) (self : Dashboard) :
  fold_left (fun g m => log_message m g) l self
  = set_console (console self ++ l) self.
Proof.
  revert self; induction l as [|m l IH]; intros self.
  - open_dashboard self; cbn; now rewrite app_nil_r.
  - cbn [fold_left]; rewrite IH; open_dashboard self; cbn.
    now rewrite <- app_assoc.
Qed.

Lemma effects_queue (effects : list Effect) (w : World) :
  queue (fold_left apply_effect effects w) = queue w ++ signals_of effects
  /\ scans (fold_left apply_effect effects w) = scans w.
Proof.
  revert w; induction effects as [|x effects IH]; intros w.
  - cbn; now rewrite app_nil_r.
  - cbn [fold_left]; destruct (IH (apply_effect w x)) as [H1 H2].
    rewrite H1, H2; destruct x as [m|sig]; cbn; [easy|].
    now rewrite <- app_assoc.
Qed.

Lemma nothing_found_lines (devices : list Bleak.BLEDevice) :
  Forall (fun x => ~ advertises_sensor x) devices ->
  lines_of (run_scan_safe (Scans (Discovered devices)))
  = LogScanning :: LogDeviceCount (List.length devices)
      :: map seen_line devices ++ [LogNoDevices].
Proof.
  intros Hall; unfold run_scan_safe; cbn [scan_ble_devices_safe].
  rewrite (scan_loop_no_match devices Hall), lines_of_app.
  change (lines_of (Say ?x :: Say ?y :: ?l)) with (x :: y :: lines_of l).
  rewrite lines_of_app, lines_of_seen; cbn; now rewrite app_nil_r.
Qed.

(** X7: when a started scan thread runs and meets no device that
    advertises the sensor, and its completion is then processed, the
    dashboard object differs from before only in the console, which has
    gained the lines of the scan thread, and in the scan button, which
    is enabled; so an address found by an earlier scan stays the
    target.  The queue is empty again and no thread has been started. *)
Theorem fruitless_scan_keeps_the_target
  (devices : list Bleak.BLEDevice) (db : DbOutcome) (w : World) (n : nat) :
  Forall (fun x => ~ advertises_sensor x) devices ->
  scans w = S n ->
  queue w = [] ->
  let w' := run [ScanWorker (Scans (Discovered devices)); Deliver db] w in
  gui w'
  = set_btn_scan_enabled true
      (set_console
         (console (gui w)
            ++ LogScanning :: LogDeviceCount (List.length devices)
                 :: map seen_line devices ++ [LogNoDevices])
         (gui w))
  /\ queue w' = []
  /\ workers w' = workers w
  /\ scans w' = n
  /\ sent w' = sent w
  /\ calls w' = calls w.
Proof.
  intros Hall Hscans Hqueue; cbv zeta.
  change (run [ScanWorker (Scans (Discovered devices)); Deliver db] w)
    with (world_step (Deliver db)
            (world_step (ScanWorker (Scans (Discovered devices))) w)).
  set (w1 := world_step (ScanWorker (Scans (Discovered devices))) w).
  assert (H1 : gui w1
               = set_console
                   (console (gui w)
                      ++ LogScanning :: LogDeviceCount (List.length devices)
                           :: map seen_line devices ++ [LogNoDevices])
                   (gui w)
               /\ queue w1 = [scan_completed true]
               /\ workers w1 = workers w /\ scans w1 = n
               /\ sent w1 = sent w /\ calls w1 = calls w).
  { unfold w1; cbn [world_step]; rewrite Hscans, Hqueue.
    match goal with
    | |- context [fold_left apply_effect ?e ?w0] =>
        destruct (effects_queue e w0) as [Hq Hs];
        destruct (effects_keep_workers e w0) as (Hw & Hse & Hc);
        pose proof (effects_log e w0) as Hg
    end.
    rewrite (nothing_found_signals devices Hall) in Hq.
    rewrite (nothing_found_lines devices Hall), logs_extend_console in Hg.
    cbn [gui queue app] in Hq, Hg.
    rewrite Hq, Hg, Hw, Hs, Hse, Hc; repeat split. }
  destruct H1 as (Hg & Hq & Hw & Hs & Hse & Hc).
  destruct w1 as [g1 ws1 s1 q1 se1 c1]; cbn in Hg, Hq, Hw, Hs, Hse, Hc.
  subst; cbn [world_step queue slot].
  rewrite main_ran_without_thread by (now destruct (gui w)).
  repeat split.
Qed.

Lemma fruitless_scan_keeps_the_target_witness :
  SENSOR_ADDRESS
    (gui (run [ScanWorker (Scans (Discovered [wristband; nameless]));
               Deliver DbOk]
              (run (streaming ++ [User ClickScan]) boot)))
  = Some "24:6F:28:AA:BB:CC"%string.
Proof.
  exact (eq_trans
           (f_equal SENSOR_ADDRESS
              (proj1 (fruitless_scan_keeps_the_target
                        [wristband; nameless] DbOk
                        (run (streaming ++ [User ClickScan]) boot) 0
                        others_do_not_advertise eq_refl eq_refl)))
           eq_refl).
Defined.

(** X8: a scan that fails, because discovery raises, because the 15 s
    deadline fires or because the event loop cannot be set up, emits
    exactly one error and no found device; once its signals have been
    processed both connection flags are false, also when a session was
    streaming, the connect button is enabled, and the stored address
    and the retry counter are as they were. *)
Theorem failed_scan_ends_the_session
  (r : ScanRun) (db : DbOutcome) (self : Dashboard) :
  (forall devices, r <> Scans (Discovered devices)) ->
  let self' := deliver_all (signals_of (run_scan_safe r)) db self in
  (exists message ending,
     signals_of (run_scan_safe r)
     = error_occurred message :: ending
     /\ Forall (fun sig => exists ok, sig = scan_completed ok) ending)
  /\ is_connected self' = false
  /\ connection_active self' = false
  /\ btn_connect_enabled self' = true
  /\ SENSOR_ADDRESS self' = SENSOR_ADDRESS self
  /\ retry_count self' = retry_count self.
Proof.
  intros Hr; cbv zeta.
  destruct r as [e|[devices|e|]]; [|now destruct (Hr devices)|..];
    (split; [do 2 eexists; split; [reflexivity|repeat constructor; eauto]|]);
    open_dashboard self; cbn; repeat split.
Qed.

Lemma failed_scan_ends_the_session_witness :
  is_connected
    (deliver_all (signals_of (run_scan_safe (Scans DiscoverHangs))) DbOk
       (gui (run streaming boot)))
  = false.
Proof.
  assert (H : forall devices,
             Scans DiscoverHangs <> Scans (Discovered devices))
    by discriminate.
  exact (proj1 (proj2 (failed_scan_ends_the_session (Scans DiscoverHangs)
                         DbOk (gui (run streaming boot)) H))).
Defined.

(** ** Connecting without a target *)

(** X9: with no address stored, or an empty one, [safe_connect_device]
    starts no thread; it emits one error signal, and through its slot
    both connection flags end up false and the connect button enabled;
    the retry counter and the client are left alone. *)
Theorem connect_needs_an_address (self : Dashboard) :
  Py.truthy_opt (SENSOR_ADDRESS self) = false ->
  let self' := safe_connect_device self in
  threads self' = threads self
  /\ emitted self'
     = emitted self
         ++ [error_occurred "No ESP32 address available - Please scan first"]
  /\ is_connected self' = false
  /\ connection_active self' = false
  /\ btn_connect_enabled self' = true
  /\ retry_count self' = retry_count self
  /\ ble_client self' = ble_client self.
Proof.
  intros Hno; cbv zeta; unfold safe_connect_device.
  destruct (SENSOR_ADDRESS self) as [[|c address]|];
    try discriminate; cbn; repeat split.
Qed.

Lemma connect_needs_an_address_witness :
  threads (safe_connect_device init) = threads init.
Proof.
  exact (proj1 (connect_needs_an_address init eq_refl)).
Defined.


(** ** Readings on their way to the table *)

Lemma slot_keeps_or_appends (sig : Signal) (db : DbOutcome)
  (self : Dashboard) :
  torque_data (slot sig db self)
  = torque_data self ++ (if stores db then readings_in [sig] else []).
Proof.
  open_dashboard self; destruct sig, db as [|[] e]; unfold_methods; cbn;
    split_cases; now rewrite ?app_nil_r.
Qed.

(** X10: when the slots of a list of signals run in order, the table
    gains exactly the values of the readings in the list, in the order
    of the list and each once, provided the database stores them; when
    it does not, the table does not change. *)
Theorem readings_are_stored_in_order
  (signals : list Signal) (db : DbOutcome) (self : Dashboard) :
  torque_data (deliver_all signals db self)
  = torque_data self ++ (if stores db then readings_in signals else []).
Proof.
  revert self; induction signals as [|sig signals IH]; intros self.
  - cbn; destruct (stores db); now rewrite app_nil_r.
  - change (deliver_all (sig :: signals) db self)
      with (deliver_all signals db (slot sig db self)).
    rewrite IH, slot_keeps_or_appends.
    assert (Hcons : readings_in (sig :: signals)
                    = readings_in [sig] ++ readings_in signals).
    { unfold readings_in; cbn [flat_map]; now rewrite app_nil_r. }
    rewrite Hcons; destruct (stores db); now rewrite <- app_assoc.
Qed.

(** X11: moving the threshold slider changes neither the label that is
    shown nor the table; the threshold becomes the value of the slider,
    which for every value the slider can deliver lies in 10..200, and
    the reading that comes next is classified against it. *)
Theorem threshold_applies_to_the_next_reading
  (slider_value torque_value : Z) (db : DbOutcome) (self : Dashboard) :
  torque_label (update_threshold slider_value self) = torque_label self
  /\ torque_data (update_threshold slider_value self) = torque_data self
  /\ THRESHOLD (update_threshold slider_value self) = slider_value
  /\ (ui_enabled (MoveSlider slider_value) self = true ->
      10 <= THRESHOLD (update_threshold slider_value self) <= 200)
  /\ torque_label
       (on_data_received torque_value db
          (update_threshold slider_value self))
     = Shown (if torque_value >? slider_value then High else Normal)
             torque_value.
Proof.
  split; [reflexivity|]; split; [reflexivity|]; split; [reflexivity|].
  split; [|apply on_data_received_label].
  cbn; intros H; apply andb_true_iff in H as [H1 H2].
  apply Z.leb_le in H1, H2; lia.
Qed.

Lemma threshold_applies_to_the_next_reading_witness :
  10 <= THRESHOLD (update_threshold 150 init) <= 200.
Proof.
  exact (proj1 (proj2 (proj2 (proj2
           (threshold_applies_to_the_next_reading 150 0 DbOk init))))
           eq_refl).
Defined.

(** ** The connection monitor *)

(** X12: a second tick of the connection monitor right after the first
    changes nothing: whatever the first one did, it leaves
    [is_connected] false when it acted, and the monitor acts only while
    that flag is true. *)
Theorem monitor_connection_is_idempotent (self : Dashboard) :
  monitor_connection (monitor_connection self) = monitor_connection self.
Proof.
  open_dashboard self; unfold monitor_connection; cbn.
  destruct running, conn, client as [[|]|]; cbn; try reflexivity.
  destruct auto, (n <? mx); cbn; try reflexivity.
  unfold safe_connect_device; cbn.
  destruct addr as [[|c a]|]; reflexivity.
Qed.

(** ** Decoding *)

Lemma byte_to_N_injective (a b : byte) :
  Byte.to_N a = Byte.to_N b -> a = b.
Proof.
  intros H; pose proof (Byte.of_to_N a) as Ha.
  rewrite H, Byte.of_to_N in Ha; congruence.
Qed.

(** X13: two payloads of the same length that decode to the same value
    are the same payload. *)
Theorem decoding_is_injective_per_length (a b : list byte) :
  List.length a = List.length b ->
  Py.int_from_bytes_little a = Py.int_from_bytes_little b ->
  a = b.
Proof.
  revert b; induction a as [|x a IH]; intros [|y b] Hlen Hval;
    try discriminate; [reflexivity|].
  cbn [Py.int_from_bytes_little] in Hval.
  pose proof (byte_range x); pose proof (byte_range y).
  assert (Hxy : Z.of_N (Byte.to_N x) = Z.of_N (Byte.to_N y)) by lia.
  assert (Hab : Py.int_from_bytes_little a = Py.int_from_bytes_little b)
    by lia.
  f_equal.
  - apply byte_to_N_injective; lia.
  - apply IH; [now injection Hlen | exact Hab].
Qed.

Lemma decoding_is_injective_per_length_witness :
  [x2a; x01] = [x2a; x01].
Proof.
  exact (decoding_is_injective_per_length [x2a; x01] [x2a; x01]
           eq_refl eq_refl).
Defined.


(** ** What a connection thread reports *)

(** X14: whenever a move of a connection thread emits an error or a
    "failed" status, the thread has ended with that move, and once the
    signals of the move have been processed, on whatever state of the
    dashboard, both connection flags are false, the connect button is
    enabled and the disconnect button disabled.  The only move that
    ends a thread without any signal is a loop test that fails. *)
Theorem reported_failure_ends_thread_and_session
  (ws : WorkerStep) (pc : Pc) (self : Dashboard) :
  let pc' := fst (fst (fst (worker_step ws pc self))) in
  let signals := snd (fst (worker_step ws pc self)) in
  ((In (connection_status "failed") signals
    \/ exists e, In (error_occurred e) signals) ->
   pc' = Finished
   /\ forall (db : DbOutcome) (g : Dashboard),
        is_connected (deliver_all signals db g) = false
        /\ connection_active (deliver_all signals db g) = false
        /\ btn_connect_enabled (deliver_all signals db g) = true
        /\ btn_disconnect_enabled (deliver_all signals db g) = false)
  /\ (pc <> Finished -> pc' = Finished -> signals = [] ->
      pc = AtLoopTest /\ ws = TestLoop).
Proof.
  cbv zeta; split.
  - intros Hrep.
    destruct pc, ws; cbn [worker_step] in *;
      try destruct (ble_client self) as [c|];
      repeat match goal with
             | H : context [if ?x then _ else _] |- _ => destruct x
             end;
      cbn in Hrep;
      try (exfalso; destruct Hrep as [H|[? H]];
           repeat (destruct H as [H|H]; try discriminate);
           now auto);
      (split; [reflexivity|]); intros db g; open_dashboard g;
      cbn; repeat split.
  - intros Hpc Hend Hnil.
    destruct pc, ws; cbn [worker_step] in *;
      try destruct (ble_client self) as [c|];
      repeat match goal with
             | H : context [if ?x then _ else _] |- _ => destruct x
             end;
      cbn in *; try discriminate; try congruence; auto.
Qed.

Lemma reported_failure_ends_thread_and_session_witness :
  fst (fst (fst (worker_step (ReadRaises "Not connected") AwaitRead init)))
  = Finished.
Proof.
  refine (proj1 (proj1 (reported_failure_ends_thread_and_session
                          (ReadRaises "Not connected") AwaitRead init) _)).
  right; exists "Data read error: Not connected"%string; now left.
Defined.

(** ** Threads and their reads *)

Lemma test_issues_nothing (pc : Pc) (self : Dashboard) :
  snd (worker_step TestLoop pc self) = []
  /\ filter is_reading (snd (fst (worker_step TestLoop pc self))) = [].
Proof.
  destruct pc; cbn; auto.
  destruct (ble_client self) as [c|]; cbn; auto.
  destruct (loop_condition c self); cbn; auto.
Qed.

(** X15: a connection thread that tests the loop condition while
    [is_connected] is still false, as happens when it gets there before
    the main thread has processed its "connected" status, leaves the
    loop at once; it never issues a read and never emits a reading,
    whatever happens afterwards. *)
Theorem early_loop_test_ends_the_thread
  (w : World) (i : nat) (more : list Action) :
  pc_of w i = AtLoopTest ->
  is_connected (gui w) = false ->
  let w' := run (Worker i TestLoop :: more) w in
  pc_of w' i = Finished
  /\ reads_by i w' = reads_by i w
  /\ readings_by i w' = readings_by i w.
Proof.
  intros Hpc Hdown; cbv zeta.
  assert (Hi : (i < List.length (workers w))%nat).
  { apply started_of_pc; rewrite Hpc; discriminate. }
  change (run (Worker i TestLoop :: more) w)
    with (run more (world_step (Worker i TestLoop) w)).
  set (w1 := world_step (Worker i TestLoop) w).
  assert (Hi1 : (i < List.length (workers w1))%nat).
  { pose proof (workers_grow (Worker i TestLoop) w); fold w1 in H; lia. }
  assert (Hpc1 : pc_of w1 i = Finished).
  { unfold w1; rewrite pc_of_world_step, Nat.eqb_refl, Hpc by assumption.
    now apply flags_down_stop_loop. }
  destruct (effects_of_world_step (Worker i TestLoop) w i Hi) as [Hr Hg].
  rewrite Nat.eqb_refl in Hr, Hg.
  change (observed i TestLoop w) with TestLoop in Hr, Hg.
  destruct (test_issues_nothing (pc_of w i) (gui w)) as [E1 E2].
  rewrite E1 in Hr; rewrite E2 in Hg.
  cbn [List.length filter] in Hr, Hg; fold w1 in Hr, Hg.
  destruct (finished_is_final more w1 i Hi1 Hpc1) as (F1 & F2 & F3).
  repeat split; [assumption | lia | lia].
Qed.

Lemma early_loop_test_ends_the_thread_witness :
  let w := run (found_sensor
                  ++ [User ClickConnect; Worker 0 Begin;
                      Worker 0 (ConnectReturns true)]) boot in
  let w' := run [Worker 0 TestLoop; Deliver DbOk; Worker 0 IssueRead] w in
  is_connected (gui w') = true /\ pc_of w' 0 = Finished.
Proof.
  split; [reflexivity|].
  exact (proj1 (early_loop_test_ends_the_thread
                  (run (found_sensor
                          ++ [User ClickConnect; Worker 0 Begin;
                              Worker 0 (ConnectReturns true)]) boot)
                  0 [Deliver DbOk; Worker 0 IssueRead] eq_refl eq_refl)).
Defined.

Lemma nth_repeat_or {A : Type} (x d : A) (k n : nat) :
  nth n (repeat x k) d = x \/ nth n (repeat x k) d = d.
Proof.
  revert n; induction k as [|k IH]; intros [|n]; cbn; auto.
Qed.

(** A thread that does not exist yet: an action leaves its counts
    alone and at most starts it. *)
Lemma unstarted_step (a : Action) (w : World) (i : nat) :
  (List.length (workers w) <= i)%nat ->
  reads_by i (world_step a w) = reads_by i w
  /\ readings_by i (world_step a w) = readings_by i w
  /\ (pc_of (world_step a w) i = AtStart
      \/ pc_of (world_step a w) i = Finished).
Proof.
  intros Hi; unfold reads_by, readings_by, pc_of.
  destruct a as [u|db|j ws|r|up]; cbn [world_step].
  - destruct (ui_enabled u (gui w)); cbn [main_ran workers calls sent].
    + rewrite app_nth2 by assumption.
      repeat split; apply nth_repeat_or.
    + rewrite nth_overflow by assumption; auto.
  - destruct (queue w); cbn [main_ran workers calls sent].
    + rewrite nth_overflow by assumption; auto.
    + rewrite app_nth2 by assumption.
      repeat split; apply nth_repeat_or.
  - generalize (observed j ws w); clear ws; intros ws.
    destruct (nth_error (workers w) j) as [pc|] eqn:Hj.
    + assert (Hlt : (j < List.length (workers w))%nat).
      { apply nth_error_Some; congruence. }
      destruct (worker_step ws pc (gui w)) as [[[pc' self'] sg] iss].
      cbn [workers calls sent].
      rewrite !filter_app, !length_app, !count_tagged.
      destruct (Nat.eqb_spec j i); [lia|].
      rewrite nth_overflow by (rewrite length_set_nth; assumption).
      repeat split; auto; lia.
    + rewrite nth_overflow by assumption; auto.
  - destruct (scans w) as [|n].
    + rewrite nth_overflow by assumption; auto.
    + destruct (effects_keep_workers (run_scan_safe r)
                  {| gui := gui w; workers := workers w; scans := n;
                     queue := queue w; sent := sent w; calls := calls w |})
        as (-> & -> & ->); cbn [workers calls sent].
      rewrite nth_overflow by assumption; auto.
  - destruct (ble_client (gui w)); cbn [workers calls sent];
      rewrite nth_overflow by assumption; auto.
Qed.

Lemma sent_grows (a : Action) (w : World) :
  exists extra, sent (world_step a w) = sent w ++ extra.
Proof.
  destruct a as [u|db|j ws|r|up]; cbn [world_step].
  - destruct (ui_enabled u (gui w)); exists []; now rewrite app_nil_r.
  - destruct (queue w); exists []; now rewrite app_nil_r.
  - generalize (observed j ws w); clear ws; intros ws.
    destruct (nth_error (workers w) j) as [pc|];
      [|exists []; now rewrite app_nil_r].
    destruct (worker_step ws pc (gui w)) as [[[pc' self'] sg] iss].
    now exists (map (pair j) sg).
  - destruct (scans w) as [|n]; [exists []; now rewrite app_nil_r|].
    rewrite (proj1 (proj2 (effects_keep_workers _ _))); cbn [sent].
    exists []; now rewrite app_nil_r.
  - destruct (ble_client (gui w)); exists []; now rewrite app_nil_r.
Qed.

Lemma sent_of_own_move (i : nat) (ws : WorkerStep) (w : World) :
  (i < List.length (workers w))%nat ->
  sent (world_step (Worker i ws) w)
  = sent w
      ++ map (pair i)
           (snd (fst (worker_step (observed i ws w) (pc_of w i) (gui w)))).
Proof.
  intros Hi; cbn [world_step]; unfold pc_of.
  generalize (observed i ws w); clear ws; intros ws.
  destruct (nth_error (workers w) i) as [pc|] eqn:Hpc.
  - rewrite (nth_error_nth _ _ Finished Hpc).
    now destruct (worker_step ws pc (gui w)) as [[[pc' self'] sg] iss].
  - apply nth_error_None in Hpc; lia.
Qed.

(** A reading answers a read that is out; a read is issued inside the
    loop; the loop is entered by the move that emits "connected". *)
Lemma worker_move_accounts (ws : WorkerStep) (pc : Pc) (self : Dashboard) :
  (List.length (filter is_reading (snd (fst (worker_step ws pc self))))
   + pending_read (fst (fst (fst (worker_step ws pc self))))
   <= List.length (filter is_read (snd (worker_step ws pc self)))
      + pending_read pc)%nat
  /\ (in_loop (fst (fst (fst (worker_step ws pc self)))) = true
      \/ (0 < List.length
                (filter is_read (snd (worker_step ws pc self))))%nat ->
      in_loop pc = true
      \/ In (connection_status "connected")
            (snd (fst (worker_step ws pc self)))).
Proof.
  destruct pc, ws; cbn [worker_step];
    try destruct (ble_client self) as [c|];
    repeat match goal with
           | |- context [if ?x then _ else _] => destruct x
           end;
    cbn; split; try lia; intros [H|H]; try discriminate; try lia; auto.
Qed.

Lemma reading_per_read_step (a : Action) (w : World) :
  (forall i, (readings_by i w + pending_read (pc_of w i)
              <= reads_by i w)%nat) ->
  forall i, (readings_by i (world_step a w)
             + pending_read (pc_of (world_step a w) i)
             <= reads_by i (world_step a w))%nat.
Proof.
  intros T i; specialize (T i).
  destruct (Nat.lt_ge_cases i (List.length (workers w))) as [Hi|Hi].
  - destruct (effects_of_world_step a w i Hi) as [-> ->].
    rewrite (pc_of_world_step a w i Hi).
    destruct a as [u|db|j ws|r|up]; try lia.
    destruct (j =? i)%nat; [|lia].
    pose proof (proj1 (worker_move_accounts (observed j ws w)
                         (pc_of w i) (gui w))); lia.
  - destruct (unstarted_step a w i Hi) as (-> & -> & [-> | ->]);
      rewrite (nth_overflow _ _ Hi : pc_of w i = Finished) in T;
      cbn in *; lia.
Qed.

Lemma reading_per_read_run (actions : list Action) (w : World) :
  (forall i, (readings_by i w + pending_read (pc_of w i)
              <= reads_by i w)%nat) ->
  forall i, (readings_by i (run actions w)
             + pending_read (pc_of (run actions w) i)
             <= reads_by i (run actions w))%nat.
Proof.
  revert w; induction actions as [|a rest IH]; intros w T; [exact T|].
  change (run (a :: rest) w) with (run rest (world_step a w)).
  apply IH, reading_per_read_step, T.
Qed.

(** X16: at every moment of every run from start-up, each connection
    thread has emitted at most as many readings as it has issued reads,
    one less while the answer of a read is still out: a read yields at
    most one reading, and no reading comes without a read. *)
Theorem one_reading_per_read (actions : list Action) (i : nat) :
  (readings_by i (run actions boot)
   + pending_read (pc_of (run actions boot) i)
   <= reads_by i (run actions boot))%nat.
Proof.
  apply reading_per_read_run; intros j.
  unfold pc_of; cbn; destruct j; cbn; lia.
Qed.

Lemma connected_first_step (a : Action) (w : World) :
  (forall i, in_loop (pc_of w i) = true \/ (0 < reads_by i w)%nat ->
             reported_connected i w) ->
  forall i, in_loop (pc_of (world_step a w) i) = true
            \/ (0 < reads_by i (world_step a w))%nat ->
            reported_connected i (world_step a w).
Proof.
  intros U i H; unfold reported_connected in *.
  destruct (sent_grows a w) as [extra Hsent].
  assert (Hold : in_loop (pc_of w i) = true \/ (0 < reads_by i w)%nat ->
                 In (i, connection_status "connected")
                    (sent (world_step a w))).
  { intros Hw; rewrite Hsent; apply in_or_app; left; now apply U. }
  destruct (Nat.lt_ge_cases i (List.length (workers w))) as [Hi|Hi].
  - destruct (effects_of_world_step a w i Hi) as [Hr _].
    rewrite Hr, (pc_of_world_step a w i Hi) in H.
    destruct a as [u|db|j ws|r|up];
      try (apply Hold; destruct H; [now left | right; lia]).
    destruct (Nat.eqb_spec j i) as [->|Hne];
      [|apply Hold; destruct H; [now left | right; lia]].
    destruct (Nat.eq_dec (reads_by i w) 0) as [Hz|Hnz];
      [|apply Hold; right; lia].
    destruct (proj2 (worker_move_accounts (observed i ws w)
                       (pc_of w i) (gui w)))
      as [Hin|Hin].
    + destruct H; [now left | right; lia].
    + apply Hold; now left.
    + rewrite sent_of_own_move by assumption.
      apply in_or_app; right.
      now apply (in_map (pair i)) in Hin.
  - destruct (unstarted_step a w i Hi) as (Hr & _ & Hpc).
    rewrite Hr in H; destruct H as [H|H].
    + destruct Hpc as [Hpc|Hpc]; rewrite Hpc in H; discriminate.
    + apply Hold; now right.
Qed.

Lemma connected_first_run (actions : list Action) (w : World) :
  (forall i, in_loop (pc_of w i) = true \/ (0 < reads_by i w)%nat ->
             reported_connected i w) ->
  forall i, in_loop (pc_of (run actions w) i) = true
            \/ (0 < reads_by i (run actions w))%nat ->
            reported_connected i (run actions w).
Proof.
  revert w; induction actions as [|a rest IH]; intros w U; [exact U|].
  change (run (a :: rest) w) with (run rest (world_step a w)).
  apply IH, connected_first_step, U.
Qed.

(** X17: at every moment of every run from start-up, a connection
    thread that is inside the read loop, or has issued a read or
    emitted a reading, has emitted its "connected" status before. *)
Theorem readings_come_after_connected (actions : list Action) (i : nat) :
  in_loop (pc_of (run actions boot) i) = true
  \/ (0 < reads_by i (run actions boot))%nat
  \/ (0 < readings_by i (run actions boot))%nat ->
  reported_connected i (run actions boot).
Proof.
  intros H; apply connected_first_run.
  - intros j [Hj|Hj]; [|cbn in Hj; lia].
    unfold pc_of in Hj; cbn in Hj; destruct j; discriminate.
  - destruct H as [H|[H|H]]; auto.
    right.
    assert (T : (readings_by i (run actions boot)
                 + pending_read (pc_of (run actions boot) i)
                 <= reads_by i (run actions boot))%nat).
    { apply reading_per_read_run; intros j.
      unfold pc_of; cbn; destruct j; cbn; lia. }
    lia.
Qed.

Lemma readings_come_after_connected_witness :
  reported_connected 0 (run streaming boot).
Proof.
  apply (readings_come_after_connected streaming 0).
  left; reflexivity.
Defined.


(** ** Simulated readings *)

Lemma on_data_received_frame (v : Z) (db : DbOutcome) (self : Dashboard) :
  is_connected (on_data_received v db self) = is_connected self
  /\ connection_active (on_data_received v db self) = connection_active self
  /\ retry_count (on_data_received v db self) = retry_count self
  /\ SENSOR_ADDRESS (on_data_received v db self) = SENSOR_ADDRESS self
  /\ threads (on_data_received v db self) = threads self.
Proof.
  open_dashboard self; unfold_methods; cbn.
  destruct db as [|[] e]; cbn; split_cases; repeat split.
Qed.

Lemma simulated_values_range (v : Z) :
  In v simulated_values -> 30 <= v <= 200.
Proof.
  cbn; intros H; repeat (destruct H as [<-|H]; [lia|]); contradiction.
Qed.

(** X18: whatever [random.choice] picks, the simulated value is one of
    the ten listed values and so lies between 30 and 200; it is shown
    with the same strict classification as a reading from the sensor
    and stored when the database stores, and simulating changes neither
    the connection flags nor the retry counter, the address or the
    threads. *)
Theorem simulated_reading_is_handled_like_a_real_one
  (pick : nat) (db : DbOutcome) (self : Dashboard) :
  exists value : Z,
    In value simulated_values
    /\ 30 <= value <= 200
    /\ torque_label (simulate_torque_data pick db self)
       = Shown (if value >? THRESHOLD self then High else Normal) value
    /\ torque_data (simulate_torque_data pick db self)
       = torque_data self ++ (if stores db then [value] else [])
    /\ is_connected (simulate_torque_data pick db self) = is_connected self
    /\ connection_active (simulate_torque_data pick db self)
       = connection_active self
    /\ retry_count (simulate_torque_data pick db self) = retry_count self
    /\ threads (simulate_torque_data pick db self) = threads self.
Proof.
  set (value := nth (pick mod 10) simulated_values 45).
  assert (Hin : In value simulated_values).
  { apply nth_In; cbn [simulated_values List.length].
    apply Nat.mod_upper_bound; discriminate. }
  exists value; split; [exact Hin|]; split.
  - now apply simulated_values_range.
  - unfold simulate_torque_data; fold value.
    set (self0 := set_emitted (emitted self ++ [data_received value]) self).
    pose proof (on_data_received_label value db self0) as Hl.
    pose proof (slot_keeps_or_appends (data_received value) db self0) as Hd.
    destruct (on_data_received_frame value db self0) as (F1 & F2 & F3 & _ & F5).
    cbn [slot] in Hd.
    destruct (on_data_received value db self0); subst self0; cbn in *.
    repeat split; assumption.
Qed.

(** ** Closing the window *)

(** X19: a close that is not forced stops both timers, clears
    [app_running] and both connection flags, and starts a disconnect
    thread exactly when a client exists and reports to be connected; it
    emits no signal; afterwards the loop condition is false for every
    state of the link and the connection monitor does nothing. *)
Theorem graceful_close_stops_everything (w : Shutdown.Window) :
  Shutdown.force_close w = false ->
  let w' := Shutdown.closeEvent w in
  app_running (Shutdown.dashboard w') = false
  /\ is_connected (Shutdown.dashboard w') = false
  /\ connection_active (Shutdown.dashboard w') = false
  /\ Shutdown.timer_active w' = false
  /\ Shutdown.connection_monitor_active w' = false
  /\ Shutdown.accepted w' = true
  /\ emitted (Shutdown.dashboard w') = emitted (Shutdown.dashboard w)
  /\ threads (Shutdown.dashboard w')
     = threads (Shutdown.dashboard w)
         ++ match ble_client (Shutdown.dashboard w) with
            | Some true => [DisconnectThread]
            | _ => []
            end
  /\ (forall link, loop_condition link (Shutdown.dashboard w') = false)
  /\ monitor_connection (Shutdown.dashboard w') = Shutdown.dashboard w'.
Proof.
  intros Hforce; destruct w as [self fc t1 t2 acc ls]; cbn in Hforce; subst.
  open_dashboard self; cbv zeta.
  destruct client as [[|]|]; vm_compute;
    (do 7 (split; [reflexivity|]));
    (split; [first [reflexivity | symmetry; apply app_nil_r]|]);
    (split; [|reflexivity]);
    intros link; now destruct link.
Qed.

Lemma graceful_close_stops_everything_witness :
  threads (Shutdown.dashboard
             (Shutdown.closeEvent
                {| Shutdown.dashboard := gui (run streaming boot);
                   Shutdown.force_close := false;
                   Shutdown.timer_active := true;
                   Shutdown.connection_monitor_active := true;
                   Shutdown.accepted := false;
                   Shutdown.lines := [] |}))
  = [ScanThread; ConnectionThread; DisconnectThread].
Proof.
  pose proof (graceful_close_stops_everything
                {| Shutdown.dashboard := gui (run streaming boot);
                   Shutdown.force_close := false;
                   Shutdown.timer_active := true;
                   Shutdown.connection_monitor_active := true;
                   Shutdown.accepted := false;
                   Shutdown.lines := [] |} eq_refl) as H.
  destruct H as (_ & _ & _ & _ & _ & _ & _ & H & _).
  exact (eq_trans H eq_refl).
Defined.

(** X20: a forced close accepts the close event and clears
    [app_running], so that the loop condition is false for every state
    of the link and the connection monitor does nothing; but it skips
    the clean-up: the timers keep their state, both connection flags
    and the threads are as before, no disconnect thread is started, and
    only the "force closing" line is written. *)
Theorem forced_close_skips_the_cleanup (w : Shutdown.Window) :
  let w' := Shutdown.force_close_app w in
  Shutdown.force_close w' = true
  /\ Shutdown.accepted w' = true
  /\ app_running (Shutdown.dashboard w') = false
  /\ Shutdown.dashboard w'
     = set_app_running false (Shutdown.dashboard w)
  /\ Shutdown.timer_active w' = Shutdown.timer_active w
  /\ Shutdown.connection_monitor_active w'
     = Shutdown.connection_monitor_active w
  /\ Shutdown.lines w'
     = Shutdown.lines w
         ++ [(List.length (console (Shutdown.dashboard w)),
              Shutdown.LogForceClosing)]
  /\ (forall link, loop_condition link (Shutdown.dashboard w') = false)
  /\ monitor_connection (Shutdown.dashboard w') = Shutdown.dashboard w'.
Proof.
  destruct w as [self fc t1 t2 acc ls]; open_dashboard self.
  cbv zeta; vm_compute; do 7 (split; [reflexivity|]); split; [|reflexivity].
  intros link; now destruct link, conn, act.
Qed.

(** X21: the disconnect thread calls [disconnect] exactly when a client
    exists and the event loop could be set up.  It emits nothing and
    changes nothing on the dashboard object, except that after a
    [disconnect] that returned the client reports not to be connected;
    a raise, in the set-up or in [disconnect], only adds one line to
    the console. *)
Theorem disconnect_is_best_effort
  (d : Shutdown.Disconnect) (w : Shutdown.Window) :
  let result := Shutdown.run_disconnect_safe d w in
  (snd result = true
   <-> ble_client (Shutdown.dashboard w) <> None
       /\ forall e, d <> Shutdown.DisconnectSetupRaises e)
  /\ Shutdown.dashboard (fst result)
     = match d, ble_client (Shutdown.dashboard w) with
       | Shutdown.DisconnectReturns, Some _ =>
           set_ble_client (Some false) (Shutdown.dashboard w)
       | _, _ => Shutdown.dashboard w
       end
  /\ emitted (Shutdown.dashboard (fst result))
     = emitted (Shutdown.dashboard w)
  /\ is_connected (Shutdown.dashboard (fst result))
     = is_connected (Shutdown.dashboard w)
  /\ connection_active (Shutdown.dashboard (fst result))
     = connection_active (Shutdown.dashboard w)
  /\ Shutdown.lines (fst result)
     = Shutdown.lines w
         ++ match d, ble_client (Shutdown.dashboard w) with
            | Shutdown.DisconnectSetupRaises e, Some _
            | Shutdown.DisconnectRaises e, Some _ =>
                [(List.length (console (Shutdown.dashboard w)),
                  Shutdown.LogDisconnectError e)]
            | _, _ => []
            end.
Proof.
  cbv zeta; unfold Shutdown.run_disconnect_safe.
  destruct (ble_client (Shutdown.dashboard w)) as [c|], d; cbn;
    rewrite ?app_nil_r; repeat split; intros;
    try congruence; try discriminate;
    match goal with
    | H : _ /\ _ |- _ => destruct H as [H1 H2]; try congruence;
                         try (now destruct (H2 e))
    end.
Qed.

